(** * amazon-orders: the authenticated session ([amazonorders/session.py])

    A shallow embedding of [AmazonSession]: the cookie jar of the underlying
    [requests.Session], the request primitive with its cookie persistence and
    debug capture, and the [login] / [logout] flow, followed by the
    properties of the specification that concern them. The parsers of the
    item entity ([amazonorders/entity/item.py]) follow, over a model of the
    parsed page.

    Strings are [string], Python [int]s are [Z] (or [nat] for the probe
    counter, which only counts up from zero), dictionaries are [gmap]s, and
    the stateful code is written in a state-and-exception monad over the
    session object, the file system and a log of the I/O performed. *)

From Stdlib Require Import ZArith Ascii String.
From stdpp Require Import base gmap strings list fin_maps pretty.

Local Open Scope Z_scope.

(** ** Python string primitives used by the module *)

Module Py.

(** [needle in hay] on [str]. *)
Fixpoint contains (needle hay : string) : bool :=
  String.prefix needle hay ||
  match hay with
  | EmptyString => false
  | String _ hay' => contains needle hay'
  end.

(** [s.split(sep)[0]] for a one-character separator: the text before the
    first occurrence of [sep], or all of [s] when there is none. *)
Fixpoint split_head (sep : ascii) (s : string) : string :=
  match s with
  | EmptyString => EmptyString
  | String c s' => if Ascii.eqb c sep then EmptyString else String c (split_head sep s')
  end.

Fixpoint mem_char (c : ascii) (chars : string) : bool :=
  match chars with
  | EmptyString => false
  | String d chars' => Ascii.eqb c d || mem_char c chars'
  end.

(** [s.lstrip(chars)]: drops leading characters that belong to the set
    [chars]. *)
Fixpoint lstrip (chars s : string) : string :=
  match s with
  | EmptyString => EmptyString
  | String c s' => if mem_char c chars then lstrip chars s' else s
  end.

Definition rstrip (chars s : string) : string :=
  String.rev (lstrip chars (String.rev s)).

(** [s.strip(chars)]: [chars] is a set of characters, removed from both
    ends; it is not a prefix or suffix. *)
Definition strip (chars s : string) : string :=
  rstrip chars (lstrip chars s).

(** The text after the last occurrence of [sep] ([acc] holds the candidate
    met so far). *)
Fixpoint after_last (sep : ascii) (acc s : string) : string :=
  match s with
  | EmptyString => acc
  | String c s' =>
      if Ascii.eqb c sep then after_last sep s' s' else after_last sep acc s'
  end.

(** [os.path.basename(p)] on POSIX: everything after the last slash. *)
Definition basename (p : string) : string := after_last "/"%char p p.

(** [os.path.join(a, p)] on POSIX for two components. *)
Definition path_join (a p : string) : string :=
  if String.prefix "/" p then p
  else if String.eqb a EmptyString then p
  else match String.rev a with
       | String "/"%char _ => a +:+ p
       | _ => a +:+ "/" +:+ p
       end.

(** The text from the first character that belongs to the set [chars] on
    (that character included), or the empty string. *)
Fixpoint drop_until (chars s : string) : string :=
  match s with
  | EmptyString => EmptyString
  | String c s' => if mem_char c chars then s else drop_until chars s'
  end.

(** The characters with a code below [n]. *)
Fixpoint chars_below (n : nat) : string :=
  match n with
  | O => EmptyString
  | S n' => String (ascii_of_nat n') (chars_below n')
  end.

(** [s.replace(c, empty)] for every character [c] of the set [chars]. *)
Fixpoint remove_chars (chars s : string) : string :=
  match s with
  | EmptyString => EmptyString
  | String c s' =>
      if mem_char c chars then remove_chars chars s' else String c (remove_chars chars s')
  end.

(** [s[n:]]. *)
Fixpoint drop (n : nat) (s : string) : string :=
  match n, s with
  | S n', String _ s' => drop n' s'
  | _, _ => s
  end.

(** Every character of [s] belongs to the set [chars]. *)
Fixpoint all_in (chars s : string) : bool :=
  match s with
  | EmptyString => true
  | String c s' => mem_char c chars && all_in chars s'
  end.

Definition is_upper (c : ascii) : bool :=
  (65 <=? nat_of_ascii c)%nat && (nat_of_ascii c <=? 90)%nat.

Definition is_lower (c : ascii) : bool :=
  (97 <=? nat_of_ascii c)%nat && (nat_of_ascii c <=? 122)%nat.

(** [s.lower()] on a text of ASCII characters. *)
Fixpoint lower (s : string) : string :=
  match s with
  | EmptyString => EmptyString
  | String c s' =>
      String (if is_upper c then ascii_of_nat (nat_of_ascii c + 32) else c) (lower s')
  end.

(** [urllib.parse.scheme_chars] and [urllib.parse.uses_params]. *)
Definition scheme_chars : string :=
  "abcdefghijklmnopqrstuvwxyzABCDEFGHIJKLMNOPQRSTUVWXYZ0123456789+-.".

Definition uses_params : list string :=
  [EmptyString; "ftp"; "hdl"; "prospero"; "http"; "imap"; "https"; "shttp"; "rtsp";
   "rtspu"; "sip"; "sips"; "mms"; "sftp"; "tel"].

(** The scheme of [urlsplit] and what follows its colon: there is a scheme
    when the text before the first colon is not empty, begins with an ASCII
    letter and is made of scheme characters. *)
Definition split_scheme (url : string) : string * string :=
  let head := split_head ":"%char url in
  let alpha :=
    match head with
    | String c _ => is_upper c || is_lower c
    | EmptyString => false
    end in
  if mem_char ":"%char url && alpha && all_in scheme_chars head
  then (lower head, drop (S (String.length head)) url)
  else (EmptyString, url).

(** [urlparse(url).path]. As [urlsplit] does, leading control characters
    and spaces are dropped and tabs and line breaks are removed; the scheme
    is split off; after a double slash the authority ends at the first
    slash, question mark or hash; the fragment and the query are cut; and,
    for the schemes that have them, so are the parameters of the last
    segment. ([urlsplit] raises [ValueError] on an authority with
    unbalanced or ill-formed square brackets; such a text is no URL of a
    response and its path is not modelled.) *)
Definition urlparse_path (url : string) : string :=
  let url :=
    remove_chars (String "009" (String "013" (String "010" EmptyString)))
      (lstrip (chars_below 33) url) in
  let scheme := (split_scheme url).1 in
  let rest := (split_scheme url).2 in
  let hier := if String.prefix "//" rest then drop_until "/?#" (drop 2 rest) else rest in
  let no_frag := split_head "#"%char hier in
  let no_query := split_head "?"%char no_frag in
  let last := basename no_query in
  let dir := String.substring 0 (String.length no_query - String.length last) no_query in
  if existsb (String.eqb scheme) uses_params
  then dir +:+ split_head ";"%char last
  else no_query.

(** [os.path.dirname(p)] on POSIX: what precedes the last slash, without
    its trailing slashes unless it is made of slashes only. *)
Definition dirname (p : string) : string :=
  let head := String.substring 0 (String.length p - String.length (basename p)) p in
  if String.eqb (lstrip "/" head) EmptyString then head else rstrip "/" head.

End Py.

(** The file that the path [p] names in the working directory [wd]: a
    relative path is taken from [wd]. Paths are not normalised any further:
    two absolute paths name the same file when they are the same string. *)
Definition abspath (wd p : string) : string :=
  if String.prefix "/" p then p else Py.path_join wd p.

(** ** Exceptions and results *)

Inductive exn : Type :=
| AmazonOrdersAuthError (msg : string)
| IndexError (msg : string)
| ValueError (msg : string)
| AttributeError (msg : string)
| JSONDecodeError (doc : string)
| FormError (msg : string)
| FileNotFoundError (filename : string).

(** The outcome of running a piece of the program: a value, a raised
    exception, or [OutOfFuel] when a loop of the model was cut short (the
    totality theorems below show that the entry points never yield it). *)
Inductive result (A : Type) : Type :=
| Ok (a : A)
| Raised (e : exn)
| OutOfFuel.
Arguments Ok {A} a.
Arguments Raised {A} e.
Arguments OutOfFuel {A}.

(** [str.format] on positional arguments, for templates whose replacement
    fields are all the automatic field [{}]: every field consumes the next
    positional argument, and a field without an argument left raises
    [IndexError], as Python does. [i] numbers the field being filled. *)
Fixpoint format_from (i : nat) (tmpl : string) (args : list string) : result string :=
  match tmpl with
  | EmptyString => Ok EmptyString
  | String "{"%char (String "}"%char rest) =>
      match args with
      | [] => Raised (IndexError
                ("Replacement index " +:+ pretty i +:+ " out of range for positional args tuple"))
      | a :: args' =>
          match format_from (S i) rest args' with
          | Ok s => Ok (a +:+ s)
          | other => other
          end
      end
  | String "{"%char _ => Raised (ValueError "Single '{' encountered in format string")
  | String "}"%char _ => Raised (ValueError "Single '}' encountered in format string")
  | String c rest =>
      match format_from i rest args with
      | Ok s => Ok (String c s)
      | other => other
      end
  end.

Definition format (tmpl : string) (args : list string) : result string :=
  format_from 0 tmpl args.

(** ** The cookie jar of [requests.Session]

    [http.cookiejar.CookieJar] keeps its cookies in a dictionary of
    dictionaries, domain -> path -> name -> cookie, and iterates over them in
    that nesting; each level is an insertion-ordered [dict], modelled as an
    association list. A cookie value is a [str] or [None]. *)

Record Cookie : Type := mkCookie {
  name : string;
  value : option string;
  domain : string;
  path : string
}.

(** [d[k] = f(d.get(k))] on an insertion-ordered dictionary: an existing key
    keeps its position, a new key goes last. *)
Fixpoint alist_upd {V : Type} (k : string) (f : option V -> V) (d : list (string * V))
  : list (string * V) :=
  match d with
  | [] => [(k, f None)]
  | (k', v) :: d' =>
      if String.eqb k k' then (k', f (Some v)) :: d'
      else (k', v) :: alist_upd k f d'
  end.

Definition CookieJar : Type := list (string * list (string * list (string * Cookie))).

(** [CookieJar.set_cookie]. *)
Definition jar_set_cookie (c : Cookie) (jar : CookieJar) : CookieJar :=
  alist_upd (domain c)
    (fun paths => alist_upd (path c)
       (fun names => alist_upd (name c) (fun _ => c) (default [] names))
       (default [] paths))
    jar.

(** Iteration over a jar ([deepvalues]). *)
Definition jar_cookies (jar : CookieJar) : list Cookie :=
  '(_, paths) ← jar; '(_, names) ← paths; '(_, c) ← names; [c].

(** [value.replace(bq, empty)] where [bq] is a backslash followed by a
    double quote: every such pair is dropped, scanning from the left. *)
Fixpoint unescape_quotes (s : string) : string :=
  match s with
  | String "\"%char (String "034"%char rest) => unescape_quotes rest
  | String c rest => String c (unescape_quotes rest)
  | EmptyString => EmptyString
  end.

Definition endswith_quote (s : string) : bool :=
  String.prefix (String "034"%char EmptyString) (String.rev s).

(** The value [RequestsCookieJar.set_cookie] stores: a [str] wrapped in
    double quotes loses its escaped quotes. *)
Definition stored_value (v : option string) : option string :=
  match v with
  | Some s =>
      if String.prefix (String "034"%char EmptyString) s && endswith_quote s
      then Some (unescape_quotes s) else Some s
  | None => None
  end.

(** [RequestsCookieJar.set_cookie]. *)
Definition set_cookie (c : Cookie) (jar : CookieJar) : CookieJar :=
  jar_set_cookie (mkCookie (name c) (stored_value (value c)) (domain c) (path c)) jar.

(** [requests.utils.dict_from_cookiejar]: name -> value, a later cookie of
    the same name replacing an earlier one. *)
Definition dict_from_cookiejar (jar : CookieJar) : gmap string (option string) :=
  foldl (fun d c => <[name c := value c]> d) ∅ (jar_cookies jar).

(** The cookie that stands for the name [n] in that dictionary: the last one
    of that name that iteration meets. *)
Definition jar_lookup (jar : CookieJar) (n : string) : option Cookie :=
  last (List.filter (fun c => String.eqb (name c) n) (jar_cookies jar)).

(** [requests.cookies.create_cookie(name, value)] with its defaults. *)
Definition create_cookie (n : string) (v : option string) : Cookie :=
  mkCookie n v EmptyString "/".

(** [requests.utils.cookiejar_from_dict(d)]: a fresh jar holding one cookie
    per key (the order in which a [dict] lists its keys is not modelled: the
    cookies made here differ in their names, so it does not show). *)
Definition cookiejar_from_dict (d : gmap string (option string)) : CookieJar :=
  foldl (fun jar '(n, v) => set_cookie (create_cookie n v) jar) [] (map_to_list d).

(** The shape of the jars that [cookiejar_from_dict] builds: one domain,
    one path, the cookies under their names. *)
Definition single_site (names : list (string * Cookie)) : CookieJar :=
  [(EmptyString, [("/", names)])].

(** [RequestsCookieJar.update(other)] for another jar. *)
Definition jar_update (other jar : CookieJar) : CookieJar :=
  foldl (fun j c => set_cookie c j) jar (jar_cookies other).

(** ** Python truthiness for [str | None] *)

Definition truthy (v : option string) : bool :=
  match v with
  | Some s => negb (String.eqb s EmptyString)
  | None => false
  end.

(** [a and b]: the first operand when it is falsy, else the second. *)
Definition py_and (a b : option string) : option string :=
  if truthy a then b else a.

(** [d.get(k)] on a dictionary of [str | None]: [None] for a missing key. *)
Definition dict_get (d : gmap string (option string)) (k : string) : option string :=
  default None (d !! k).

(** The messages of [login], as the format calls that succeed build them. *)
Definition debug_hint : string :=
  " To capture the page to a file, set the `debug` flag.".

Definition unknown_page_message (page debug_str : string) : string :=
  "An error occurred, this is an unknown page, or its parsed contents don't match a known auth flow: "
  +:+ page +:+ "." +:+ debug_str.

Definition max_attempts_message : string :=
  "Max authentication flow attempts reached.".

(** ** Responses, requests and the session object *)

Record Response : Type := mkResponse {
  status_code : Z;
  url : string;
  text : string
}.

(** [Response.ok]: [raise_for_status] raises for a status in [400, 600) and
    for no other. *)
Definition ok (r : Response) : bool :=
  negb ((400 <=? status_code r) && (status_code r <? 600)).

(** The keyword arguments of [request]: [headers] when the caller passes
    them, and the remaining ones, which travel to the transport untouched. *)
Record Kwargs : Type := mkKwargs {
  kw_headers : option (gmap string string);
  kw_rest : list (string * string)
}.

Definition no_kwargs : Kwargs := mkKwargs None [].

(** What [requests.Session.request] is called with. *)
Record Request : Type := mkRequest {
  method : string;
  req_url : string;
  headers : gmap string string;
  rest : list (string * string)
}.

(** The attributes of an [AmazonSession]. [session] is the cookie jar of the
    shared [requests.Session], the only part of it the module looks at;
    [last_response_parsed] is a function of [last_response] and is left
    out. *)
Record AmazonSession : Type := mkSession {
  username : string;
  password : string;
  debug : bool;
  max_auth_attempts : Z;
  cookie_jar_path : string;
  output_dir : string;
  session : CookieJar;
  last_response : option Response;
  is_authenticated : bool
}.

(** A file holds either the JSON document that [json.dumps] wrote for a
    dictionary of cookies (kept as that dictionary: [json.loads] gives it
    back) or any other text. Directories are taken to exist. *)
Inductive FileData : Type :=
| JsonText (d : gmap string (option string))
| PlainText (s : string).

(** The I/O a run performs, oldest first. *)
Inductive Event : Type :=
| EvRequest (r : Request)
| EvRemove (p : string)
| EvWrite (p : string) (data : FileData)
| EvClose.

(** The network side of a log: the requests sent and the closing of the
    transport, without the file operations. *)
Definition is_net (e : Event) : bool :=
  match e with
  | EvRequest _ | EvClose => true
  | EvRemove _ | EvWrite _ _ => false
  end.

Definition net_events (evs : list Event) : list Event := List.filter is_net evs.

(** The program with its surroundings: the working directory, the session
    object, the files (under their absolute paths) and the log. *)
Record State : Type := mkState {
  cwd : string;
  self : AmazonSession;
  files : gmap string FileData;
  events : list Event
}.

(** What a run of the session's code leaves alone in the session object:
    its configuration and its flag; and a response, once stored, is only
    ever replaced by another. *)
Definition frame (s s' : AmazonSession) : Prop :=
  debug s' = debug s /\ max_auth_attempts s' = max_auth_attempts s /\
  cookie_jar_path s' = cookie_jar_path s /\ output_dir s' = output_dir s /\
  is_authenticated s' = is_authenticated s /\
  (is_Some (last_response s) -> is_Some (last_response s')).

(** A state reached from another by such a run: the log has only grown. *)
Definition extends (st st' : State) : Prop :=
  cwd st' = cwd st /\ frame (self st) (self st') /\
  exists evs, events st' = events st ++ evs.

(** ** The state-and-exception monad *)

Definition M (A : Type) : Type := State -> result A * State.

Definition ret {A : Type} (a : A) : M A := fun st => (Ok a, st).

Definition raise {A : Type} (e : exn) : M A := fun st => (Raised e, st).

Definition bind {A B : Type} (m : M A) (k : A -> M B) : M B :=
  fun st =>
    match m st with
    | (Ok a, st') => k a st'
    | (Raised e, st') => (Raised e, st')
    | (OutOfFuel, st') => (OutOfFuel, st')
    end.

Definition lift {A : Type} (r : result A) : M A := fun st => (r, st).

Definition get_self : M AmazonSession := fun st => (Ok (self st), st).

Definition modify_self (f : AmazonSession -> AmazonSession) : M unit :=
  fun st => (Ok tt, mkState (cwd st) (f (self st)) (files st) (events st)).

Definition emit (e : Event) : M unit :=
  fun st => (Ok tt, mkState (cwd st) (self st) (files st) (events st ++ [e])).

Declare Scope session_scope.
Delimit Scope session_scope with session.
Notation "x <- m ;; k" := (bind m (fun x => k))
  (at level 100, m at next level, right associativity) : session_scope.
Notation "m ;;; k" := (bind m (fun _ => k))
  (at level 100, right associativity) : session_scope.
Local Open Scope session_scope.

(** Attribute updates of the session object. *)
Definition set_session (jar : CookieJar) (s : AmazonSession) : AmazonSession :=
  mkSession (username s) (password s) (debug s) (max_auth_attempts s)
    (cookie_jar_path s) (output_dir s) jar (last_response s) (is_authenticated s).

Definition set_last_response (r : Response) (s : AmazonSession) : AmazonSession :=
  mkSession (username s) (password s) (debug s) (max_auth_attempts s)
    (cookie_jar_path s) (output_dir s) (session s) (Some r) (is_authenticated s).

Definition set_is_authenticated (b : bool) (s : AmazonSession) : AmazonSession :=
  mkSession (username s) (password s) (debug s) (max_auth_attempts s)
    (cookie_jar_path s) (output_dir s) (session s) (last_response s) b.

(** File-system primitives; the log keeps the paths as the program wrote
    them. *)
Definition os_path_exists (p : string) : M bool :=
  fun st => (Ok (bool_decide (is_Some (files st !! abspath (cwd st) p))), st).

Definition os_remove (p : string) : M unit :=
  fun st =>
    (Ok tt,
     mkState (cwd st) (self st) (delete (abspath (cwd st) p) (files st))
       (events st ++ [EvRemove p])).

Definition write_file (p : string) (data : FileData) : M unit :=
  fun st =>
    (Ok tt,
     mkState (cwd st) (self st) (<[abspath (cwd st) p := data]> (files st))
       (events st ++ [EvWrite p data])).

(** ** Step handlers

    The form classes live in [amazonorders/forms.py]; the session only calls
    [select_form], [fill_form] and [submit] on them. A handler recognises
    its page from the session it is handed and, when run, talks to the
    session through [request] alone: its run is a tree of requests, each
    continued from the response it gets, ending normally or in an
    exception. What the operator answers to a prompt is part of the
    handler. *)
Inductive FormAction : Type :=
| FormDone
| FormRaise (e : exn)
| FormRequest (method target : string) (kw : Kwargs) (k : Response -> FormAction).

Record AuthForm : Type := mkForm {
  select_form : AmazonSession -> bool;
  fill_and_submit : AmazonSession -> FormAction
}.

(** ** The session's operations *)

Section Session.

(** [amazonorders/constants.py] and [amazonorders/conf.py]. *)
Variable BASE_HEADERS : gmap string string.
Variables SIGN_IN_URL SIGN_IN_REDIRECT_URL SIGN_OUT_URL : string.
Variables DEFAULT_COOKIE_JAR_PATH DEFAULT_OUTPUT_DIR : string.

(** The step handlers, in priority order ([amazonorders/forms.py]). *)
Variable AUTH_FORMS : list AuthForm.

(** [requests.Session.request] and the server behind it: from the I/O done
    so far, the request and the jar, the response and the jar with the
    cookies the exchange has set. Every request is answered: a failure of
    the network is not modelled. *)
Variable transport : list Event -> Request -> CookieJar -> Response * CookieJar.

(** [json.loads] on text that [json.dumps] did not write. *)
Variable json_loads : string -> result (gmap string (option string)).

(** [if not p: p = dflt] for an optional path argument. *)
Definition path_or_default (p : option string) (dflt : string) : string :=
  match p with
  | Some q => if String.eqb q EmptyString then dflt else q
  | None => dflt
  end.

(** [AmazonSession.__init__], run in the working directory [wd] over the
    files [fs]: the attributes, the directory of the cookie store, and the
    cookies of the cookie store file, when there is one, loaded into the
    new jar. Directories are not part of the file map: a directory that has
    a name is there or [os.makedirs] makes it, and for a cookie jar path
    without a directory part, where the name is empty, [os.path.exists] is
    false and [os.makedirs] raises [FileNotFoundError]. *)
Definition init (username password : string) (debug : bool) (max_auth_attempts : Z)
    (cookie_jar_path output_dir : option string) (wd : string)
    (fs : gmap string FileData)
  : result AmazonSession :=
  let cookie_jar_path := path_or_default cookie_jar_path DEFAULT_COOKIE_JAR_PATH in
  let output_dir := path_or_default output_dir DEFAULT_OUTPUT_DIR in
  let new jar :=
    Ok (mkSession username password debug max_auth_attempts cookie_jar_path
          output_dir jar None false) in
  let cookie_dir := Py.dirname cookie_jar_path in
  if String.eqb cookie_dir EmptyString then Raised (FileNotFoundError cookie_dir)
  else
    match fs !! abspath wd cookie_jar_path with
    | None => new []
    | Some f =>
        let data :=
          match f with
          | JsonText d => Ok d
          | PlainText s => json_loads s
          end in
        match data with
        | Ok d => new (jar_update (cookiejar_from_dict d) [])
        | Raised e => Raised e
        | OutOfFuel => OutOfFuel
        end
    end.

(** [os.path.isfile] in the working directory [wd]. *)
Definition isfile (wd : string) (fs : gmap string FileData) (p : string) : bool :=
  bool_decide (is_Some (fs !! abspath wd p)).

(** The capture file name numbered [i], the format of the source written
    out (see [page_file_format]). *)
Definition page_file (page_name : string) (i : nat) : string :=
  page_name +:+ "_" +:+ pretty i +:+ ".html".

(** The [while] loop of [_get_page_from_url], from counter [i]. *)
Fixpoint probe (fuel : nat) (wd : string) (fs : gmap string FileData)
    (page_name : string) (i : nat) : option nat :=
  match fuel with
  | O => None
  | S fuel' =>
      if isfile wd fs (page_file page_name i) then probe fuel' wd fs page_name (S i)
      else Some i
  end.

Definition _get_page_from_url (u : string) : M string :=
  fun st =>
    let page_name := Py.strip ".html" (Py.basename (Py.urlparse_path u)) in
    match probe (S (size (files st))) (cwd st) (files st) page_name 0 with
    | Some i => (Ok (page_file page_name i), st)
    | None => (OutOfFuel, st)
    end.

(** The path that the debug capture of the response [resp] is written to,
    in the working directory [wd] over the files [fs]. *)
Definition capture_path (s : AmazonSession) (wd : string) (fs : gmap string FileData)
    (resp : Response) : string :=
  let page_name := Py.strip ".html" (Py.basename (Py.urlparse_path (url resp))) in
  Py.path_join (output_dir s)
    (page_file page_name (default 0%nat (probe (S (size fs)) wd fs page_name 0))).

(** [kwargs["headers"].update(BASE_HEADERS)]: every key of the base set
    takes the base value; the other keys keep the caller's. *)
Definition merged_headers (kw : Kwargs) : gmap string string :=
  BASE_HEADERS ∪ default ∅ (kw_headers kw).

(** The request that [request] hands to the transport. *)
Definition outbound (method target : string) (kw : Kwargs) : Request :=
  mkRequest method target (merged_headers kw) (kw_rest kw).

Definition send (r : Request) : M Response :=
  fun st =>
    let '(resp, jar) := transport (events st) r (session (self st)) in
    (Ok resp,
     mkState (cwd st) (set_last_response resp (set_session jar (self st)))
             (files st) (events st ++ [EvRequest r])).

(** The cookie persistence of [request]: delete, then write. *)
Definition persist_cookies : M unit :=
  s <- get_self ;;
  let cookies := dict_from_cookiejar (session s) in
  there <- os_path_exists (cookie_jar_path s) ;;
  (if there : bool then os_remove (cookie_jar_path s) else ret tt) ;;;
  write_file (cookie_jar_path s) (JsonText cookies).

(** The debug capture of [request]. *)
Definition debug_capture (resp : Response) : M unit :=
  s <- get_self ;;
  if debug s then
    page_name <- _get_page_from_url (url resp) ;;
    write_file (Py.path_join (output_dir s) page_name) (PlainText (text resp))
  else ret tt.

Definition request (method target : string) (kw : Kwargs) : M Response :=
  resp <- send (outbound method target kw) ;;
  persist_cookies ;;;
  debug_capture resp ;;;
  ret resp.

Definition get (target : string) (kw : Kwargs) : M Response := request "GET" target kw.

Definition post (target : string) (kw : Kwargs) : M Response := request "POST" target kw.

Definition auth_cookies_stored (s : AmazonSession) : option string :=
  let cookies := dict_from_cookiejar (session s) in
  py_and (dict_get cookies "session-token") (dict_get cookies "x-main").

(** Reading the attribute [attr] of [self.last_response], which is [None]
    until the first request. *)
Definition the_last_response (attr : string) : M Response :=
  s <- get_self ;;
  match last_response s with
  | Some r => ret r
  | None =>
      raise (AttributeError ("'NoneType' object has no attribute '" +:+ attr +:+ "'"))
  end.

Fixpoint run_form (a : FormAction) : M unit :=
  match a with
  | FormDone => ret tt
  | FormRaise e => raise e
  | FormRequest method target kw k => resp <- request method target kw ;; run_form (k resp)
  end.

(** The [for form in AUTH_FORMS] loop; the result is [form_found]. *)
Fixpoint try_forms (forms : list AuthForm) : M bool :=
  match forms with
  | [] => ret false
  | form :: forms' =>
      s <- get_self ;;
      if select_form form s then run_form (fill_and_submit form s) ;;; ret true
      else try_forms forms'
  end.

Definition logout : M unit :=
  get SIGN_OUT_URL no_kwargs ;;;
  s <- get_self ;;
  there <- os_path_exists (cookie_jar_path s) ;;
  (if there : bool then os_remove (cookie_jar_path s) else ret tt) ;;;
  emit EvClose ;;;
  modify_self (set_session []) ;;;
  modify_self (set_is_authenticated false).

(** The stale-session test of [login]. *)
Definition stale_session : M bool :=
  s <- get_self ;;
  if truthy (auth_cookies_stored s) then
    r <- the_last_response "url" ;;
    ret (String.eqb (Py.split_head "?" (url r)) SIGN_IN_REDIRECT_URL)
  else ret false.

(** The test that opens the body of the [while] loop. *)
Definition signed_in : M bool :=
  s <- get_self ;;
  if truthy (auth_cookies_stored s) then ret true
  else
    r <- the_last_response "text" ;;
    ret (negb (Py.contains "Hello, sign in" (text r)) &&
         Py.contains "nav-item-signout" (text r)).

(** The [if not form_found] block. *)
Definition no_form_found : M unit :=
  s <- get_self ;;
  let debug_str :=
    if negb (debug s) then debug_hint else EmptyString in
  r <- the_last_response "ok" ;;
  if ok r then
    msg <- lift (format
      "An error occurred, this is an unknown page, or its parsed contents don't match a known auth flow: {}.{}"
      [url r; debug_str]) ;;
    raise (AmazonOrdersAuthError msg)
  else if (400 <=? status_code r) && (status_code r <? 500) then
    msg <- lift (format "An error occurred, the page {} returned {}.{}"
      [url r; debug_str]) ;;
    raise (AmazonOrdersAuthError msg)
  else if (500 <=? status_code r) && (status_code r <? 600) then
    msg <- lift (format
      "An error occurred, the page {} returned {}, which Amazon had an error (or may be temporarily blocking your requests). Wait a bit before trying again.{}"
      [url r; debug_str]) ;;
    raise (AmazonOrdersAuthError msg)
  else ret tt.

(** The [while] loop of [login]; the result is [attempts] at its exit. *)
Fixpoint login_loop (fuel : nat) (attempts : Z) : M Z :=
  s <- get_self ;;
  if negb (is_authenticated s) && (attempts <? max_auth_attempts s) then
    match fuel with
    | O => lift OutOfFuel
    | S fuel' =>
        authenticated <- signed_in ;;
        if authenticated : bool then
          modify_self (set_is_authenticated true) ;;; ret attempts
        else
          form_found <- try_forms AUTH_FORMS ;;
          (if form_found : bool then ret tt else no_form_found) ;;;
          login_loop fuel' (attempts + 1)
    end
  else ret attempts.

(** [iterates fuel a st fuel' a' st']: from the loop test at counter [a]
    in state [st], the loop runs some iterations, each of them entered, not
    yet signed in, and resolved by a handler without an exception, and
    comes to the loop test at counter [a'] in state [st']. *)
Inductive iterates : nat -> Z -> State -> nat -> Z -> State -> Prop :=
| iterates_here fuel a st : iterates fuel a st fuel a st
| iterates_step fuel a st st1 fuel' a' st' :
    is_authenticated (self st) = false ->
    a < max_auth_attempts (self st) ->
    signed_in st = (Ok false, st) ->
    try_forms AUTH_FORMS st = (Ok true, st1) ->
    iterates fuel (a + 1) st1 fuel' a' st' ->
    iterates (S fuel) a st fuel' a' st'.

(** [login] up to the loop: the entry point is fetched, and fetched again
    after a logout when the local session is stale. *)
Definition login_entry : M unit :=
  get SIGN_IN_URL no_kwargs ;;;
  stale <- stale_session ;;
  if stale : bool then logout ;;; get SIGN_IN_URL no_kwargs ;;; ret tt
  else ret tt.

(** [login] from the loop on: the loop, then the test on the counter. *)
Definition login_attempts : M unit :=
  s <- get_self ;;
  attempts <- login_loop (Z.to_nat (max_auth_attempts s)) 0 ;;
  s <- get_self ;;
  if attempts =? max_auth_attempts s then
    raise (AmazonOrdersAuthError max_attempts_message)
  else ret tt.

Definition login : M unit := login_entry ;;; login_attempts.

End Session.

(** ** Concrete runs

    A small configuration and a few canned servers, used below to run the
    model on concrete inputs. *)

Module Scenario.

Definition base_headers : gmap string string :=
  {[ "User-Agent" := "Mozilla/5.0"; "Accept-Language" := "en-US,en;q=0.9" ]}.

Definition sign_in_url : string := "https://www.amazon.com/gp/sign-in.html".
Definition sign_in_redirect_url : string := "https://www.amazon.com/ap/signin".
Definition sign_out_url : string := "https://www.amazon.com/gp/sign-out.html".

Definition no_json (s : string) : result (gmap string (option string)) :=
  Raised (JSONDecodeError s).

(** Pages. *)
Definition sign_in_page : Response :=
  mkResponse 200 "https://www.amazon.com/ap/signin?openid.mode=checkid_setup"
    "<form name=signIn>Hello, sign in</form>".

Definition robot_check_page : Response :=
  mkResponse 200 "https://www.amazon.com/ap/signin?openid.mode=checkid_setup"
    "<p>Hello, sign in</p><p>Enter the characters you see below</p>".

Definition not_found_page : Response :=
  mkResponse 404 "https://www.amazon.com/gp/sign-in.html" "<p>Hello, sign in</p>".

Definition home_page : Response :=
  mkResponse 200 "https://www.amazon.com/" "<a id=nav-item-signout>Sign Out</a>".

Definition mfa_page : Response :=
  mkResponse 200 "https://www.amazon.com/ap/mfa?ie=UTF8" "<form id=auth-mfa-form></form>".

(** A server that answers every request with the same page and sets no
    cookie. *)
Definition always (page : Response)
  : list Event -> Request -> CookieJar -> Response * CookieJar :=
  fun _ _ jar => (page, jar).

(** A server that shows the sign-in page first and the home page once
    something has been sent to it. *)
Definition sign_in_then_home
  : list Event -> Request -> CookieJar -> Response * CookieJar :=
  fun evs _ jar =>
    match net_events evs with
    | [] => (sign_in_page, jar)
    | _ => (home_page, jar)
    end.

(** The sign-in handler: it recognises the sign-in form and posts the
    credentials. *)
Definition sign_in_form : AuthForm :=
  mkForm
    (fun s =>
       match last_response s with
       | Some r => Py.contains "name=signIn" (text r)
       | None => false
       end)
    (fun s =>
       FormRequest "POST" sign_in_redirect_url
         (mkKwargs None [("email", username s); ("password", password s)])
         (fun _ => FormDone)).

Definition forms : list AuthForm := [sign_in_form].

(** A new session with an empty jar, over an empty file system; the
    cookie store and the output directory are given relative to the
    working directory. *)
Definition fresh (budget : Z) (dbg : bool) : State :=
  mkState "/home/user"
    (mkSession "user@example.com" "secret" dbg budget "cookies.json" "out" [] None false)
    ∅ [].

(** The two authentication cookies, as the storefront sets them. *)
Definition auth_jar (x_main : option string) : CookieJar :=
  set_cookie (mkCookie "x-main" x_main ".amazon.com" "/")
    (set_cookie (mkCookie "session-token" (Some "tok") ".amazon.com" "/") []).

(** A session that a previous [login] has authenticated. *)
Definition authenticated (budget : Z) : State :=
  mkState "/home/user"
    (mkSession "user@example.com" "secret" false budget "cookies.json" "out"
       (auth_jar (Some "xm")) (Some sign_in_page) true)
    {[ "/home/user/cookies.json" :=
         JsonText (dict_from_cookiejar (auth_jar (Some "xm"))) ]} [].

(** A debugging session whose output directory already holds a capture of
    the sign-in page. *)
Definition with_capture : State :=
  mkState "/home/user"
    (mkSession "user@example.com" "secret" true 10 "cookies.json" "out" [] None false)
    {[ "/home/user/out/signin_0.html" := PlainText "<p>an earlier capture</p>" ]} [].

Definition login (server : list Event -> Request -> CookieJar -> Response * CookieJar)
  : M unit :=
  login base_headers sign_in_url sign_in_redirect_url sign_out_url forms server.

Definition login_entry (server : list Event -> Request -> CookieJar -> Response * CookieJar)
  : M unit :=
  login_entry base_headers sign_in_url sign_in_redirect_url sign_out_url server.

End Scenario.

(** ** The cookie store and the jar

    [synced st]: the cookie store file holds the dictionary of the jar, as
    the persistence of the last request left it. *)
(** An absolute [http] or [https] URL without square brackets, as the URL
    of a response is: [urlparse] raises on none of them. *)
Definition http_url (u : string) : bool :=
  (String.prefix "http://" u || String.prefix "https://" u) &&
  negb (Py.mem_char "[" u) && negb (Py.mem_char "]" u).

Definition synced (st : State) : Prop :=
  files st !! abspath (cwd st) (cookie_jar_path (self st)) =
    Some (JsonText (dict_from_cookiejar (session (self st)))).

(** The evidence on which [login] flags a session as authenticated: the
    authentication cookies, or a page with the signed-in marker and without
    the signed-out one. *)
Definition signed_in_evidence (s : AmazonSession) : Prop :=
  truthy (auth_cookies_stored s) = true \/
  exists r, last_response s = Some r /\
    Py.contains "Hello, sign in" (text r) = false /\
    Py.contains "nav-item-signout" (text r) = true.

(** ** Parsed pages and the item entity ([amazonorders/entity/item.py])

    A parsed page is the tree that BeautifulSoup builds: a tag has a name,
    attributes and contents, which are tags and strings (comments and the
    like are not modelled). A character of a [string] stands for one
    character of the page. *)

Module Item.

#[warnings="-register-all"]
Inductive Node : Type :=
| NavigableString (s : string)
| Tag (name : string) (attrs : gmap string string) (contents : list Node).

(** [tag.text]: the strings below the tag, in document order, joined. *)
Fixpoint text (n : Node) : string :=
  match n with
  | NavigableString s => s
  | Tag _ _ contents =>
      (fix join (l : list Node) : string :=
         match l with
         | [] => EmptyString
         | c :: l' => text c +:+ join l'
         end) contents
  end.

(** [tag.descendants], the tags among them: document order, a tag before
    what it contains. *)
Fixpoint descendants (n : Node) : list Node :=
  match n with
  | NavigableString _ => []
  | Tag _ _ contents =>
      (fix walk (l : list Node) : list Node :=
         match l with
         | [] => []
         | c :: l' =>
             match c with
             | NavigableString _ => walk l'
             | Tag _ _ _ => c :: descendants c ++ walk l'
             end
         end) contents
  end.

Definition is_named (name : string) (n : Node) : bool :=
  match n with
  | NavigableString _ => false
  | Tag name' _ _ => String.eqb name' name
  end.

(** [tag.find_all(name)]. *)
Definition find_all (name : string) (n : Node) : list Node :=
  List.filter (is_named name) (descendants n).

(** [tag.find(name)]: the first of them, or [None]. *)
Definition find (name : string) (n : Node) : option Node :=
  head (find_all name n).

Definition attrs_of (n : Node) : gmap string string :=
  match n with
  | NavigableString _ => ∅
  | Tag _ attrs _ => attrs
  end.

(** The characters that [str.isspace] holds true of. *)
Definition whitespace : string :=
  String "009" (String "010" (String "011" (String "012" (String "013"
  (String "028" (String "029" (String "030" (String "031" (String " "
  (String "133" (String "160" EmptyString))))))))))).

(** [s.strip()]. *)
Definition strip (s : string) : string := Py.strip whitespace s.

(** [s.replace(c, empty)] for a one-character [c]. *)
Fixpoint remove_char (c : ascii) (s : string) : string :=
  match s with
  | EmptyString => EmptyString
  | String d s' => if Ascii.eqb d c then remove_char c s' else String d (remove_char c s')
  end.

(** The text after the first occurrence of [sep] in [s], when there is
    one. *)
Fixpoint after_first (sep s : string) : option string :=
  if String.prefix sep s then Some (String.substring (String.length sep) (String.length s) s)
  else match s with
       | EmptyString => None
       | String _ s' => after_first sep s'
       end.

(** The text before the first occurrence of [sep] in [s], or all of [s]. *)
Fixpoint before_first (sep s : string) : string :=
  if String.prefix sep s then EmptyString
  else match s with
       | EmptyString => EmptyString
       | String c s' => String c (before_first sep s')
       end.

(** What the methods of [Item] raise. *)
Inductive error : Type :=
| AttributeError (msg : string)
| KeyError (key : string)
| IndexError (msg : string)
| ValueError (msg : string).

Inductive outcome (A : Type) : Type :=
| Returns (a : A)
| Raises (e : error).
Arguments Returns {A} a.
Arguments Raises {A} e.

(** [s.split(sep)[1]] for a separator that is not empty: the text between
    the first occurrence of [sep] and the next one. *)
Definition split_second (sep s : string) : outcome string :=
  match after_first sep s with
  | Some rest => Returns (before_first sep rest)
  | None => Raises (IndexError "list index out of range")
  end.

Section Parse.

(** [BASE_URL], which the module imports. *)
Variable BASE_URL : string.

(** [datetime.date], and [datetime.strptime(s, fmt).date()] for the format
    that the module uses; it raises when [s] is not such a date. *)
Variable date : Type.
Variable strptime : string -> outcome date.

(** The tag that the item was made from ([self.parsed]). *)
Variable parsed : Node.

Definition _parse_title : outcome string :=
  match find "a" parsed with
  | Some tag => Returns (strip (text tag))
  | None => Raises (AttributeError "'NoneType' object has no attribute 'text'")
  end.

Definition _parse_link : outcome string :=
  match find "a" parsed with
  | Some tag =>
      match attrs_of tag !! "href" with
      | Some href => Returns (BASE_URL +:+ href)
      | None => Raises (KeyError "href")
      end
  | None => Raises (AttributeError "'NoneType' object has no attribute 'attrs'")
  end.

(** The loop of [_parse_price] over the tags still to visit; [None] when it
    falls through. *)
Fixpoint price_of (tags : list Node) : option string :=
  match tags with
  | [] => None
  | tag :: tags' =>
      if String.prefix "$" (strip (text tag))
      then Some (remove_char "$" (strip (text tag)))
      else price_of tags'
  end.

Definition _parse_price : option string := price_of (find_all "div" parsed).

(** The loop of [_parse_condition]. *)
Fixpoint condition_of (tags : list Node) : outcome (option string) :=
  match tags with
  | [] => Returns None
  | tag :: tags' =>
      if Py.contains "Condition:" (text tag) then
        match split_second "Condition:" (text tag) with
        | Returns c => Returns (Some (strip c))
        | Raises e => Raises e
        end
      else condition_of tags'
  end.

Definition _parse_condition : outcome (option string) :=
  condition_of (find_all "div" parsed).

(** The loop of [_parse_return_eligible_date]. *)
Fixpoint return_date_of (tags : list Node) : outcome (option date) :=
  match tags with
  | [] => Returns None
  | tag :: tags' =>
      if Py.contains "Return" (text tag) then
        let split_str :=
          if Py.contains "closed on " (text tag) then "closed on " else "through " in
        let clean_str := strip (text tag) in
        if Py.contains split_str clean_str then
          match split_second split_str clean_str with
          | Returns date_str =>
              match strptime date_str with
              | Returns d => Returns (Some d)
              | Raises e => Raises e
              end
          | Raises e => Raises e
          end
        else return_date_of tags'
      else return_date_of tags'
  end.

Definition _parse_return_eligible_date : outcome (option date) :=
  return_date_of (find_all "div" parsed).

End Parse.

End Item.

(** ** Further concrete runs *)

Module Cases.

(** A debugging session that writes its captures to the working directory,
    which already holds a capture of the sign-in page. *)
Definition debugging_here : State :=
  mkState "/home/user"
    (mkSession "user@example.com" "secret" true 10 "cookies.json" "/home/user" [] None false)
    {[ "/home/user/signin_0.html" := PlainText "<p>an earlier capture</p>" ]} [].

(** A new session whose cookie store has a directory of its own. *)
Definition fresh (budget : Z) : State :=
  mkState "/home/user"
    (mkSession "user@example.com" "secret" false budget "conf/cookies.json" "out"
       [] None false)
    ∅ [].

(** A session that a previous [login] has authenticated, with its cookie
    store in a directory of its own. *)
Definition stored (budget : Z) : State :=
  mkState "/home/user"
    (mkSession "user@example.com" "secret" false budget "conf/cookies.json" "out"
       (Scenario.auth_jar (Some "xm")) (Some Scenario.sign_in_page) true)
    {[ "/home/user/conf/cookies.json" :=
         JsonText (dict_from_cookiejar (Scenario.auth_jar (Some "xm"))) ]} [].

(** A debugging session that holds the authentication cookies and keeps
    its cookie store in the output directory, under a name that a capture
    of the sign-in page takes. *)
Definition capture_on_store : State :=
  mkState "/home/user"
    (mkSession "user@example.com" "secret" true 10 "out/signin_0.html" "out"
       (Scenario.auth_jar (Some "xm")) None false)
    ∅ [].

(** An item of an order, as the order page lists it. *)
Definition item_tag : Item.Node :=
  Item.Tag "div" {[ "class" := "yohtmlc-item" ]}
    [Item.Tag "div" ∅
       [Item.Tag "a" {[ "href" := "/dp/B01N0TQ0OH" ]}
          [Item.NavigableString "   Cadeya Egg Cleaning Brush  "]];
     Item.Tag "div" ∅
       [Item.Tag "span" ∅ [Item.NavigableString "Sold by: "];
        Item.Tag "a" {[ "href" := "/gp/aag/main?seller=A1" ]} [Item.NavigableString "Cadeya"]];
     Item.Tag "div" ∅ [Item.NavigableString " Return window closed on tomorrow "];
     Item.Tag "div" ∅ [Item.NavigableString " $1,234.50 "];
     Item.Tag "div" ∅
       [Item.NavigableString " Condition: New ";
        Item.Tag "span" ∅ [Item.NavigableString "Condition: Used"]]].

(** Dates as year, month and day; this [strptime] knows one date. *)
Definition strptime (s : string) : Item.outcome (Z * Z * Z) :=
  if String.eqb s "Mar 5, 2024" then Item.Returns (2024, 3, 5)
  else Item.Raises
         (Item.ValueError ("time data " +:+ s +:+ " does not match format '%b %d, %Y'")).

End Cases.

(** * Properties *)

(** ** Strings *)

Lemma string_length_app (s t : string) :
  String.length (s +:+ t) = (String.length s + String.length t)%nat.
Proof. induction s as [|c s IH]; simpl; [done | by rewrite IH]. Qed.

Lemma string_app_inj_r (t s1 s2 : string) : s1 +:+ t = s2 +:+ t -> s1 = s2.
Proof.
  revert s2. induction s1 as [|c s1 IH]; intros [|d s2] H.
  - done.
  - apply (f_equal String.length) in H.
    rewrite !string_length_app in H. simpl in H. lia.
  - apply (f_equal String.length) in H.
    rewrite !string_length_app in H. simpl in H. lia.
  - change (String c (s1 +:+ t) = String d (s2 +:+ t)) in H.
    injection H as -> H. f_equal. by apply IH.
Qed.

(** The capture file name is the source's format, filled in. *)
Lemma page_file_format (page_name : string) (i : nat) :
  format "{}_{}.html" [page_name; pretty i] = Ok (page_file page_name i).
Proof. reflexivity. Qed.

Lemma page_file_inj (page_name : string) (i j : nat) :
  page_file page_name i = page_file page_name j -> i = j.
Proof.
  unfold page_file. intros H.
  apply String.app_inj in H. apply (String.app_inj "_") in H.
  apply string_app_inj_r in H. by apply (inj pretty) in H.
Qed.

(** ** The probe of [_get_page_from_url] *)

Lemma path_join_inj (wd p q : string) :
  String.prefix "/" p = false -> String.prefix "/" q = false ->
  Py.path_join wd p = Py.path_join wd q -> p = q.
Proof.
  unfold Py.path_join. intros -> ->.
  destruct (String.eqb wd EmptyString); [done|].
  destruct (String.rev wd) as [|c r]; [|destruct (Ascii.eqb_spec c "/") as [->|]].
  - intros H. by apply String.app_inj, (String.app_inj "/") in H.
  - apply String.app_inj.
  - assert (forall a b : string,
      match c with
      | "/"%char => a
      | _ => b
      end = b) as Hc.
    { intros a b. by destruct c as [[] [] [] [] [] [] [] []]. }
    rewrite !Hc. intros H. by apply String.app_inj, (String.app_inj "/") in H.
Qed.

Lemma page_file_absolute (page_name : string) (i j : nat) :
  String.prefix "/" (page_file page_name i) = String.prefix "/" (page_file page_name j).
Proof.
  unfold page_file. destruct page_name as [|c page_name]; [done|].
  assert (forall x : string, String c page_name +:+ x = String c (page_name +:+ x)) as Hc
    by done.
  rewrite !Hc. cbn [String.prefix]. destruct (ascii_dec "/" c); [|done].
  assert (forall x : string, String.prefix EmptyString x = true) as Hp by (by intros []).
  by rewrite !Hp.
Qed.

Lemma abspath_page_file_inj (wd page_name : string) (i j : nat) :
  abspath wd (page_file page_name i) = abspath wd (page_file page_name j) -> i = j.
Proof.
  unfold abspath. rewrite (page_file_absolute page_name j i).
  destruct (String.prefix "/" (page_file page_name i)) eqn:E.
  - apply page_file_inj.
  - intros H. apply (page_file_inj page_name).
    apply (path_join_inj wd); [done | | done].
    by rewrite (page_file_absolute page_name j i).
Qed.

Lemma probe_Some fuel wd fs page_name i r :
  probe fuel wd fs page_name i = Some r ->
  (i <= r)%nat /\ isfile wd fs (page_file page_name r) = false /\
  forall j, (i <= j < r)%nat -> isfile wd fs (page_file page_name j) = true.
Proof.
  revert i. induction fuel as [|fuel IH]; intros i H; simpl in H; [done|].
  destruct (isfile wd fs (page_file page_name i)) eqn:E.
  - apply IH in H as (Hle & Hfree & Hbelow). split_and!; [lia | done |].
    intros j Hj. destruct (decide (j = i)) as [->|]; [done|]. apply Hbelow. lia.
  - injection H as <-. split_and!; [lia | done | intros j Hj; lia].
Qed.

Lemma probe_None fuel wd fs page_name i :
  probe fuel wd fs page_name i = None ->
  forall j, (i <= j < i + fuel)%nat -> isfile wd fs (page_file page_name j) = true.
Proof.
  revert i. induction fuel as [|fuel IH]; intros i H j Hj; [lia|].
  simpl in H. destruct (isfile wd fs (page_file page_name i)) eqn:E; [|done].
  destruct (decide (j = i)) as [->|]; [done|]. apply (IH (S i)); [done | lia].
Qed.

(** The fuel handed to the probe is enough: a file system of [n] files
    cannot hold all of the [n + 1] first candidates. *)
Lemma probe_total (wd : string) (fs : gmap string FileData) (page_name : string) :
  is_Some (probe (S (size fs)) wd fs page_name 0).
Proof.
  destruct (probe (S (size fs)) wd fs page_name 0) eqn:E; [by eexists|].
  exfalso. pose proof (probe_None _ _ _ _ _ E) as Hall.
  set (names := (fun i => abspath wd (page_file page_name i)) <$> seq 0 (S (size fs))).
  assert (NoDup names) as Hnd.
  { apply NoDup_fmap_2_strong; [|apply NoDup_seq].
    intros i j _ _. apply abspath_page_file_inj. }
  assert (list_to_set names ⊆ dom fs) as Hsub.
  { intros x Hx. apply elem_of_list_to_set, list_elem_of_fmap in Hx as (j & -> & Hj).
    apply elem_of_seq in Hj. apply elem_of_dom.
    specialize (Hall j ltac:(lia)). unfold isfile in Hall.
    by apply bool_decide_eq_true in Hall. }
  apply subseteq_size in Hsub.
  rewrite size_list_to_set, size_dom in Hsub by done.
  unfold names in Hsub. rewrite length_fmap, length_seq in Hsub. lia.
Qed.

(** ** The cookie jar *)

Lemma truthy_py_and (a b : option string) :
  truthy (py_and a b) = truthy a && truthy b.
Proof. unfold py_and. by destruct (truthy a) eqn:E; simpl. Qed.

(** Storing a value does not change whether it is empty. *)
Lemma truthy_stored_value (v : option string) : truthy (stored_value v) = truthy v.
Proof.
  destruct v as [s|]; [|done]. simpl.
  destruct (String.prefix _ s && endswith_quote s) eqn:E; [|done].
  apply andb_true_iff in E as [E _].
  destruct s as [|c s]; [done|]. cbn [String.prefix] in E.
  destruct (ascii_dec "034" c) as [<-|]; [|done]. done.
Qed.

(** The dictionary of a jar, read key by key. *)
Lemma foldl_insert_lookup (cs : list Cookie) (d0 : gmap string (option string)) (n : string) :
  foldl (fun d c => <[name c := value c]> d) d0 cs !! n =
    match last (List.filter (fun c => String.eqb (name c) n) cs) with
    | Some c => Some (value c)
    | None => d0 !! n
    end.
Proof.
  revert d0. induction cs as [|c cs IH]; intros d0; simpl; [done|].
  rewrite IH. destruct (String.eqb_spec (name c) n) as [<-|Hne].
  - destruct (List.filter _ cs) as [|c' cs'] eqn:Hf; simpl.
    + by rewrite lookup_insert_eq.
    + rewrite last_cons. by destruct (last cs').
  - destruct (last _); [done|]. by rewrite lookup_insert_ne.
Qed.

Lemma dict_from_cookiejar_lookup (jar : CookieJar) (n : string) :
  dict_from_cookiejar jar !! n = value <$> jar_lookup jar n.
Proof.
  unfold dict_from_cookiejar, jar_lookup. rewrite foldl_insert_lookup.
  by destruct (last _).
Qed.

Lemma jar_lookup_elem (jar : CookieJar) (n : string) (c : Cookie) :
  jar_lookup jar n = Some c -> c ∈ jar_cookies jar /\ name c = n.
Proof.
  unfold jar_lookup. intros H.
  assert (c ∈ List.filter (fun c => String.eqb (name c) n) (jar_cookies jar)) as Hin.
  { by apply last_Some_elem_of. }
  apply list_elem_of_In, List.filter_In in Hin as [Hin Hn].
  split; [by apply list_elem_of_In | by apply String.eqb_eq].
Qed.

Lemma alist_upd_fresh {V : Type} (k : string) (f : option V -> V) (d : list (string * V)) :
  k ∉ d.*1 -> alist_upd k f d = d ++ [(k, f None)].
Proof.
  induction d as [|[k' v] d IH]; intros Hk; simpl; [done|].
  rewrite fmap_cons, not_elem_of_cons in Hk. destruct Hk as [Hne Hk]. simpl in Hne.
  destruct (String.eqb_spec k k'); [done|]. by rewrite IH.
Qed.

Lemma jar_cookies_single_site (names : list (string * Cookie)) :
  jar_cookies (single_site names) = names.*2.
Proof.
  unfold jar_cookies, single_site. simpl. rewrite !app_nil_r.
  induction names as [|[k c] names IH]; simpl; [done|]. f_equal. exact IH.
Qed.

(** The jar made from the pairs [l], each stored under its name on the one
    site, by the step that [cookiejar_from_dict] and [jar_update] share. *)
Lemma foldl_set_cookie_fresh (f : option string -> option string)
    (l : list (string * option string)) (names : list (string * Cookie)) :
  NoDup (names.*1 ++ l.*1) ->
  foldl (fun jar '(n, v) => jar_set_cookie (mkCookie n (f v) EmptyString "/") jar)
    (single_site names) l =
  single_site (names ++ ((fun '(n, v) => (n, mkCookie n (f v) EmptyString "/")) <$> l)).
Proof.
  revert names. induction l as [|[n v] l IH]; intros names Hnd; simpl.
  - by rewrite app_nil_r.
  - assert (jar_set_cookie (mkCookie n (f v) EmptyString "/") (single_site names) =
            single_site (names ++ [(n, mkCookie n (f v) EmptyString "/")])) as ->.
    { unfold jar_set_cookie, single_site. simpl. rewrite alist_upd_fresh; [done|].
      apply NoDup_app in Hnd as (_ & Hdis & _). intros Hin.
      apply (Hdis _ Hin). simpl. left. }
    rewrite IH.
    + by rewrite <- app_assoc.
    + rewrite fmap_app. simpl. rewrite <- app_assoc. exact Hnd.
Qed.

Lemma foldl_set_cookie_nil (f : option string -> option string)
    (l : list (string * option string)) :
  NoDup l.*1 ->
  jar_cookies
    (foldl (fun jar '(n, v) => jar_set_cookie (mkCookie n (f v) EmptyString "/") jar) [] l) =
  (fun '(n, v) => mkCookie n (f v) EmptyString "/") <$> l.
Proof.
  intros Hnd. destruct l as [|[n v] l]; [done|]. simpl.
  change (jar_set_cookie (mkCookie n (f v) EmptyString "/") [])
    with (single_site [(n, mkCookie n (f v) EmptyString "/")]).
  rewrite foldl_set_cookie_fresh by done.
  rewrite jar_cookies_single_site. simpl. f_equal.
  rewrite <- list_fmap_compose. apply list_fmap_ext. by intros _ [n' v'] _.
Qed.

(** The dictionary of a list of cookies with distinct names. *)
Lemma foldl_insert_NoDup (f : option string -> option string)
    (l : list (string * option string)) (n : string) :
  NoDup l.*1 ->
  foldl (fun d c => <[name c := value c]> d) (∅ : gmap string (option string))
    ((fun '(n, v) => mkCookie n (f v) EmptyString "/") <$> l) !! n =
  f <$> (list_to_map l : gmap string (option string)) !! n.
Proof.
  intros Hnd.
  enough (forall d0 : gmap string (option string),
    foldl (fun d c => <[name c := value c]> d) d0
      ((fun '(n, v) => mkCookie n (f v) EmptyString "/") <$> l) !! n =
    match (list_to_map l : gmap string (option string)) !! n with
    | Some v => Some (f v)
    | None => d0 !! n
    end) as H.
  { rewrite H, lookup_empty. by destruct (_ !! n). }
  induction l as [|[k v] l IH]; intros d0; [simpl; by rewrite lookup_empty|].
  rewrite fmap_cons in Hnd. apply NoDup_cons in Hnd as [Hk Hnd].
  rewrite fmap_cons. cbn [foldl]. rewrite IH by done.
  rewrite list_to_map_cons. cbn [name value].
  destruct (decide (k = n)) as [->|Hne].
  - rewrite lookup_insert_eq.
    assert ((list_to_map l : gmap string (option string)) !! n = None) as ->
      by by apply not_elem_of_list_to_map_1.
    by rewrite lookup_insert_eq.
  - by rewrite !lookup_insert_ne by done.
Qed.

(** What a new session reads back from the dictionary [d] of a cookie store
    file: the values of [d], stored twice. *)
Lemma dict_reloaded (d : gmap string (option string)) :
  dict_from_cookiejar (jar_update (cookiejar_from_dict d) []) =
    (fun v => stored_value (stored_value v)) <$> d.
Proof.
  pose proof (NoDup_fst_map_to_list d) as Hnd.
  unfold jar_update, cookiejar_from_dict.
  assert (forall l : list (string * option string),
    foldl (fun jar '(n, v) => set_cookie (create_cookie n v) jar) [] l =
    foldl (fun jar '(n, v) =>
             jar_set_cookie (mkCookie n (stored_value v) EmptyString "/") jar) [] l) as ->.
  { intros l. generalize (@nil (string * list (string * list (string * Cookie)))).
    induction l as [|[n v] l IH]; intros j; simpl; [done | apply IH]. }
  rewrite foldl_set_cookie_nil by done.
  set (l := map_to_list d) in *.
  assert (forall (cs : list (string * option string)) j,
    foldl (fun j c => set_cookie c j) j
      ((fun '(n, v) => mkCookie n (stored_value v) EmptyString "/") <$> cs) =
    foldl (fun jar '(n, v) =>
             jar_set_cookie (mkCookie n (stored_value (stored_value v)) EmptyString "/") jar)
      j cs) as ->.
  { induction cs as [|[n v] cs IH]; intros j; simpl; [done | apply IH]. }
  unfold dict_from_cookiejar. rewrite foldl_set_cookie_nil by done.
  apply map_eq. intros n.
  rewrite (foldl_insert_NoDup (fun v => stored_value (stored_value v))) by done.
  unfold l. by rewrite list_to_map_to_list, lookup_fmap.
Qed.

Lemma truthy_dict_get (jar : CookieJar) (n : string) :
  truthy (dict_get (dict_from_cookiejar jar) n) = true <->
  exists c v, jar_lookup jar n = Some c /\ value c = Some v /\ v <> EmptyString.
Proof.
  unfold dict_get. rewrite dict_from_cookiejar_lookup.
  destruct (jar_lookup jar n) as [c|]; simpl.
  - destruct (value c) as [v|] eqn:Hv; simpl.
    + destruct (String.eqb_spec v EmptyString) as [->|Hne]; simpl.
      * split; [done|]. intros (c' & v' & [= <-] & Hv' & Hne). congruence.
      * split; [|done]. intros _. by exists c, v.
    + split; [done|]. intros (c' & v' & [= <-] & Hv' & _). congruence.
  - split; [done|]. by intros (c' & v' & ? & _).
Qed.

(** C6, with Python's truthiness. [auth_cookies_stored] is true exactly
    when, for the session token and for [x-main] alike, the jar holds a
    cookie of that name and the one that stands for the name has a value
    that is a non-empty string; the last response and the flag play no part
    in it. *)
Theorem auth_cookies_stored_iff (s : AmazonSession) :
  (truthy (auth_cookies_stored s) = true <->
   forall n, n = "session-token" \/ n = "x-main" ->
     exists c v, jar_lookup (session s) n = Some c /\ value c = Some v /\ v <> EmptyString) /\
  (forall r b,
     auth_cookies_stored (set_is_authenticated b (set_last_response r s)) =
     auth_cookies_stored s).
Proof.
  split; [|done].
  unfold auth_cookies_stored. rewrite truthy_py_and, andb_true_iff, !truthy_dict_get.
  split.
  - intros [H1 H2] n [->| ->]; done.
  - intros H. split; apply H; auto.
Qed.

(** ** The request primitive *)

Lemma frame_refl s : frame s s.
Proof. by repeat split. Qed.

Lemma frame_trans s1 s2 s3 : frame s1 s2 -> frame s2 s3 -> frame s1 s3.
Proof.
  intros (?&?&?&?&?&?) (?&?&?&?&?&?). repeat split; try congruence. auto.
Qed.

Lemma net_events_app evs1 evs2 :
  net_events (evs1 ++ evs2) = net_events evs1 ++ net_events evs2.
Proof. unfold net_events. apply List.filter_app. Qed.

Section Facts.

Variable BASE_HEADERS : gmap string string.
Variables SIGN_IN_URL SIGN_IN_REDIRECT_URL SIGN_OUT_URL : string.
Variables DEFAULT_COOKIE_JAR_PATH DEFAULT_OUTPUT_DIR : string.
Variable AUTH_FORMS : list AuthForm.
Variable transport : list Event -> Request -> CookieJar -> Response * CookieJar.
Variable json_loads : string -> result (gmap string (option string)).

Local Abbreviation outbound := (outbound BASE_HEADERS).
Local Abbreviation send := (send transport).
Local Abbreviation request := (request BASE_HEADERS transport).
Local Abbreviation get := (get BASE_HEADERS transport).
Local Abbreviation run_form := (run_form BASE_HEADERS transport).
Local Abbreviation try_forms := (try_forms BASE_HEADERS transport).
Local Abbreviation logout := (logout BASE_HEADERS SIGN_OUT_URL transport).
Local Abbreviation stale_session := (stale_session SIGN_IN_REDIRECT_URL).
Local Abbreviation login_loop :=
  (login_loop BASE_HEADERS AUTH_FORMS transport).
Local Abbreviation login_entry :=
  (login_entry BASE_HEADERS SIGN_IN_URL SIGN_IN_REDIRECT_URL SIGN_OUT_URL transport).
Local Abbreviation login_attempts := (login_attempts BASE_HEADERS AUTH_FORMS transport).
Local Abbreviation login :=
  (login BASE_HEADERS SIGN_IN_URL SIGN_IN_REDIRECT_URL SIGN_OUT_URL AUTH_FORMS transport).
Local Abbreviation init := (init DEFAULT_COOKIE_JAR_PATH DEFAULT_OUTPUT_DIR json_loads).

Lemma get_page_from_url_ok (u : string) (st : State) :
  exists i,
    _get_page_from_url u st =
      (Ok (page_file (Py.strip ".html" (Py.basename (Py.urlparse_path u))) i), st) /\
    probe (S (size (files st))) (cwd st) (files st)
      (Py.strip ".html" (Py.basename (Py.urlparse_path u))) 0 = Some i.
Proof.
  unfold _get_page_from_url.
  destruct (probe_total (cwd st) (files st)
              (Py.strip ".html" (Py.basename (Py.urlparse_path u))))
    as [i Hi].
  exists i. by rewrite Hi.
Qed.

(** The number that the probe settles on is the least one whose file
    name is free in the working directory. *)
Lemma get_page_from_url_least (u : string) (st : State) :
  exists i,
    _get_page_from_url u st =
      (Ok (page_file (Py.strip ".html" (Py.basename (Py.urlparse_path u))) i), st) /\
    isfile (cwd st) (files st)
      (page_file (Py.strip ".html" (Py.basename (Py.urlparse_path u))) i) = false /\
    forall j, (j < i)%nat ->
      isfile (cwd st) (files st)
        (page_file (Py.strip ".html" (Py.basename (Py.urlparse_path u))) j) = true.
Proof.
  destruct (get_page_from_url_ok u st) as (i & Hi & Hp). exists i. split; [done|].
  apply probe_Some in Hp as (_ & Hfree & Hbelow). split; [done|].
  intros j Hj. apply Hbelow. lia.
Qed.

(** The persistence block leaves the cookie store file holding the
    dictionary of the jar, whatever was there. *)
Lemma persist_cookies_eq (st : State) :
  persist_cookies st =
    (Ok tt,
     mkState (cwd st) (self st)
       (<[abspath (cwd st) (cookie_jar_path (self st)) :=
            JsonText (dict_from_cookiejar (session (self st)))]>
          (files st))
       (events st ++
          (if bool_decide
                (is_Some (files st !! abspath (cwd st) (cookie_jar_path (self st))))
           then [EvRemove (cookie_jar_path (self st))] else []) ++
          [EvWrite (cookie_jar_path (self st))
             (JsonText (dict_from_cookiejar (session (self st))))])).
Proof.
  unfold persist_cookies, bind, get_self, os_path_exists, os_remove, write_file, ret.
  simpl. case_bool_decide; simpl.
  - by rewrite insert_delete_eq, <- app_assoc.
  - done.
Qed.

Lemma debug_capture_spec (resp : Response) (st : State) :
  exists fs' evs,
    debug_capture resp st = (Ok tt, mkState (cwd st) (self st) fs' (events st ++ evs)) /\
    net_events evs = [] /\
    (forall p, is_Some (files st !! p) -> is_Some (fs' !! p)) /\
    (debug (self st) = false -> fs' = files st /\ evs = []) /\
    (debug (self st) = true ->
     fs' = <[abspath (cwd st) (capture_path (self st) (cwd st) (files st) resp) :=
               PlainText (text resp)]> (files st)).
Proof.
  unfold debug_capture, bind, get_self. destruct (debug (self st)) eqn:Hd.
  - destruct (get_page_from_url_ok (url resp) st) as (i & -> & Hp).
    unfold write_file. simpl. eexists _, [_]. split; [done|]. split; [done|].
    split; [|split; [done|]].
    + intros p Hq.
      match goal with |- is_Some (<[?q := _]> _ !! _) => destruct (decide (q = p)) as [->|] end.
      * rewrite lookup_insert_eq. by eexists.
      * by rewrite lookup_insert_ne.
    + intros _. unfold capture_path. by rewrite Hp.
  - exists (files st), []. rewrite app_nil_r. destruct st; done.
Qed.

(** One call of [request]: it returns the response of the transport,
    stores it with the jar, and logs exactly one request. *)
Lemma request_spec (method target : string) (kw : Kwargs) (st : State) :
  exists fs' evs,
    request method target kw st =
      (Ok (transport (events st) (outbound method target kw) (session (self st))).1,
       mkState (cwd st)
         (set_last_response
            (transport (events st) (outbound method target kw) (session (self st))).1
            (set_session
               (transport (events st) (outbound method target kw) (session (self st))).2
               (self st)))
         fs' (events st ++ EvRequest (outbound method target kw) :: evs)) /\
    net_events evs = [] /\
    is_Some (fs' !! abspath (cwd st) (cookie_jar_path (self st))) /\
    (debug (self st) = false \/
     abspath (cwd st)
       (capture_path (self st) (cwd st)
          (<[abspath (cwd st) (cookie_jar_path (self st)) :=
               JsonText (dict_from_cookiejar
                 (transport (events st) (outbound method target kw) (session (self st))).2)]>
             (files st))
          (transport (events st) (outbound method target kw) (session (self st))).1)
     <> abspath (cwd st) (cookie_jar_path (self st)) ->
     fs' !! abspath (cwd st) (cookie_jar_path (self st)) =
       Some (JsonText (dict_from_cookiejar
               (transport (events st) (outbound method target kw) (session (self st))).2))).
Proof.
  unfold request, bind at 1, send.
  destruct (transport _ _ _) as [resp jar] eqn:Ht. simpl.
  unfold bind at 1. rewrite persist_cookies_eq. simpl.
  unfold bind.
  match goal with |- context [debug_capture resp ?s] =>
    destruct (debug_capture_spec resp s) as (fs' & evs & Hc & Hnet & Hdom & Hoff & Hon) end.
  rewrite Hc. simpl in *. unfold ret.
  eexists fs', _. split.
  - rewrite <- !app_assoc. simpl. reflexivity.
  - split.
    + unfold net_events in *. rewrite !List.filter_app.
      case_bool_decide; simpl; by rewrite Hnet.
    + split; [apply Hdom; rewrite lookup_insert_eq; by eexists|].
      destruct (debug (self st)) eqn:Hd.
      * intros [|Hne]; [done|]. rewrite (Hon eq_refl).
        rewrite lookup_insert_ne by done. apply lookup_insert_eq.
      * intros _. destruct (Hoff eq_refl) as [-> _]. apply lookup_insert_eq.
Qed.

(** ** Handlers *)

Lemma extends_refl st : extends st st.
Proof. split_and!; [done | apply frame_refl | exists []; by rewrite app_nil_r]. Qed.

Lemma extends_trans st1 st2 st3 : extends st1 st2 -> extends st2 st3 -> extends st1 st3.
Proof.
  intros (C1 & F1 & e1 & E1) (C2 & F2 & e2 & E2).
  split_and!; [congruence | by eapply frame_trans |].
  exists (e1 ++ e2). by rewrite E2, E1, app_assoc.
Qed.

Lemma request_extends (method target : string) (kw : Kwargs) (st : State) :
  exists resp st',
    request method target kw st = (Ok resp, st') /\ extends st st' /\
    last_response (self st') = Some resp.
Proof.
  destruct (request_spec method target kw st) as (fs' & evs & -> & _ & _ & _).
  eexists _, _. split; [done|]. split; [|done].
  split_and!; [done | by repeat split | by eexists].
Qed.

Lemma run_form_spec (a : FormAction) (st : State) :
  exists r st', run_form a st = (r, st') /\ r <> OutOfFuel /\ extends st st'.
Proof.
  revert st. induction a as [| e | method target kw k IH]; intros st; simpl.
  - exists (Ok tt), st. split_and!; [done | done | apply extends_refl].
  - exists (Raised e), st. split_and!; [done | done | apply extends_refl].
  - destruct (request_extends method target kw st) as (resp & st1 & Hr & He & _).
    destruct (IH resp st1) as (r & st' & Hk & Hne & He').
    exists r, st'. unfold bind. rewrite Hr. split_and!; [done | done |].
    by eapply extends_trans.
Qed.

(** The scan stops at the first handler that recognises the page. *)
Lemma try_forms_find (forms : list AuthForm) (st : State) :
  try_forms forms st =
    match List.find (fun form => select_form form (self st)) forms with
    | Some form => (run_form (fill_and_submit form (self st)) ;;; ret true) st
    | None => (Ok false, st)
    end.
Proof.
  induction forms as [|form forms IH]; simpl; [done|].
  unfold bind at 1, get_self. simpl.
  destruct (select_form form (self st)); [done | apply IH].
Qed.

Lemma find_none_Forall (forms : list AuthForm) (s : AmazonSession) :
  List.find (fun form => select_form form s) forms = None <->
  Forall (fun form => select_form form s = false) forms.
Proof.
  induction forms as [|form forms IH]; simpl.
  - split; [constructor | done].
  - destruct (select_form form s) eqn:E.
    + split; [done | intros H; inversion H; congruence].
    + rewrite IH. split; [by constructor | by intros H; inversion H].
Qed.

Lemma try_forms_spec (forms : list AuthForm) (st : State) :
  exists r st',
    try_forms forms st = (r, st') /\ r <> OutOfFuel /\ extends st st' /\
    (r = Ok false -> st' = st /\ Forall (fun form => select_form form (self st) = false) forms).
Proof.
  rewrite try_forms_find.
  destruct (List.find _ forms) as [form|] eqn:Hf.
  - destruct (run_form_spec (fill_and_submit form (self st)) st) as (r & st' & Hr & Hne & He).
    unfold bind. rewrite Hr. destruct r as [[]| e |]; [| |done].
    + exists (Ok true), st'. by split_and!.
    + exists (Raised e), st'. by split_and!.
  - exists (Ok false), st. split_and!; [done | done | apply extends_refl |].
    intros _. split; [done|]. by apply find_none_Forall.
Qed.

Lemma try_forms_no_match (forms : list AuthForm) (st : State) :
  Forall (fun form => select_form form (self st) = false) forms ->
  try_forms forms st = (Ok false, st).
Proof. intros H. apply find_none_Forall in H. by rewrite try_forms_find, H. Qed.

(** ** The tests of [login] *)

Lemma signed_in_state (st : State) : (signed_in st).2 = st.
Proof.
  unfold signed_in, bind, get_self, the_last_response, bind, get_self, ret, raise.
  destruct (truthy _); [done|]. by destruct (last_response (self st)).
Qed.

Lemma signed_in_fuel (st : State) : (signed_in st).1 <> OutOfFuel.
Proof.
  unfold signed_in, bind, get_self, the_last_response, bind, get_self, ret, raise.
  destruct (truthy _); [done|]. by destruct (last_response (self st)).
Qed.

Lemma signed_in_true (st : State) :
  signed_in st = (Ok true, st) <->
  truthy (auth_cookies_stored (self st)) = true \/
  exists r, last_response (self st) = Some r /\
    Py.contains "Hello, sign in" (text r) = false /\
    Py.contains "nav-item-signout" (text r) = true.
Proof.
  unfold signed_in, bind, get_self, the_last_response, bind, get_self, ret, raise.
  destruct (truthy _); [by split; [left|]|].
  destruct (last_response (self st)) as [r|]; simpl.
  - split.
    + intros [= H]. right. exists r. split; [done|].
      apply andb_true_iff in H as [H1 H2]. by apply negb_true_iff in H1.
    + intros [|(r' & [= <-] & H1 & H2)]; [done|]. by rewrite H1, H2.
  - split; [done | intros [|(r' & ? & _)]; done].
Qed.

Lemma string_app_nil_r (s : string) : s +:+ EmptyString = s.
Proof. induction s as [|c s IH]; [done|]. change (String c (s +:+ EmptyString) = String c s). by rewrite IH. Qed.

Lemma format_unknown_page (page debug_str : string) :
  format
    "An error occurred, this is an unknown page, or its parsed contents don't match a known auth flow: {}.{}"
    [page; debug_str] = Ok (unknown_page_message page debug_str).
Proof.
  unfold unknown_page_message. rewrite <- (string_app_nil_r debug_str) at 2. reflexivity.
Qed.

(** The two other templates have three fields and are handed two
    arguments. *)
Lemma format_client_error (page debug_str : string) :
  format "An error occurred, the page {} returned {}.{}" [page; debug_str] =
    Raised (IndexError "Replacement index 2 out of range for positional args tuple").
Proof. reflexivity. Qed.

Lemma format_server_error (page debug_str : string) :
  format
    "An error occurred, the page {} returned {}, which Amazon had an error (or may be temporarily blocking your requests). Wait a bit before trying again.{}"
    [page; debug_str] =
    Raised (IndexError "Replacement index 2 out of range for positional args tuple").
Proof. reflexivity. Qed.

(** The block that follows a scan without a match always raises, and
    leaves the state as it is. *)
Lemma no_form_found_spec (st : State) (r : Response) :
  last_response (self st) = Some r ->
  no_form_found st =
    (Raised
       (if ok r then
          AmazonOrdersAuthError
            (unknown_page_message (url r)
               (if debug (self st) then EmptyString else debug_hint))
        else IndexError "Replacement index 2 out of range for positional args tuple"),
     st).
Proof.
  intros Hr. unfold no_form_found, bind at 1, get_self.
  unfold bind at 1, the_last_response, bind at 1, get_self. rewrite Hr. unfold ret at 1.
  destruct (ok r) eqn:Hok.
  - unfold bind, lift. rewrite format_unknown_page. unfold raise.
    by destruct (debug (self st)).
  - unfold ok in Hok. apply negb_false_iff, andb_true_iff in Hok as [H4 H6].
    destruct (status_code r <? 500) eqn:H5.
    + rewrite H4. simpl. unfold bind, lift. by rewrite format_client_error.
    + rewrite H4. simpl. assert ((500 <=? status_code r) = true) as -> by lia.
      rewrite H6. simpl. unfold bind, lift. by rewrite format_server_error.
Qed.

Lemma no_form_found_raises (st : State) :
  exists e, no_form_found st = (Raised e, st).
Proof.
  destruct (last_response (self st)) as [r|] eqn:Hr.
  - eexists. by apply no_form_found_spec.
  - eexists. unfold no_form_found, bind at 1, get_self.
    unfold bind at 1, the_last_response, bind at 1, get_self. rewrite Hr. done.
Qed.

(** What the [if not form_found] block raises is never the max-attempts
    error. *)
Lemma no_form_found_not_max (st : State) (e : exn) :
  no_form_found st = (Raised e, st) ->
  e <> AmazonOrdersAuthError max_attempts_message.
Proof.
  destruct (last_response (self st)) as [r|] eqn:Hr.
  - rewrite (no_form_found_spec st r Hr). intros [= <-].
    destruct (ok r); [|done]. unfold unknown_page_message. discriminate.
  - unfold no_form_found, bind at 1, get_self.
    unfold bind at 1, the_last_response, bind at 1, get_self. rewrite Hr.
    by intros [= <-].
Qed.

(** ** The attempt loop *)

Lemma login_loop_exit (fuel : nat) (a : Z) (st : State) :
  is_authenticated (self st) = true \/ max_auth_attempts (self st) <= a ->
  login_loop fuel a st = (Ok a, st).
Proof.
  intros H. destruct fuel; simpl; unfold bind, get_self.
  all: destruct H as [-> | H]; [done|].
  all: assert ((a <? max_auth_attempts (self st)) = false) as -> by lia.
  all: by rewrite andb_false_r.
Qed.

Lemma login_loop_enter (fuel : nat) (a : Z) (st : State) :
  is_authenticated (self st) = false -> a < max_auth_attempts (self st) ->
  login_loop (S fuel) a st =
    (authenticated <- signed_in ;;
     if authenticated : bool then
       modify_self (set_is_authenticated true) ;;; ret a
     else
       form_found <- try_forms AUTH_FORMS ;;
       (if form_found : bool then ret tt else no_form_found) ;;;
       login_loop fuel (a + 1)) st.
Proof.
  intros Hf Ha. simpl. unfold bind at 1, get_self. rewrite Hf.
  by assert ((a <? max_auth_attempts (self st)) = true) as -> by lia.
Qed.

(** Iterations that a handler resolves are steps of the loop. *)
Lemma iterates_loop fuel a st fuel' a' st' :
  iterates BASE_HEADERS AUTH_FORMS transport fuel a st fuel' a' st' ->
  login_loop fuel a st = login_loop fuel' a' st'.
Proof.
  induction 1 as [| fuel a st st1 fuel' a' st' Hf Ha Hs Ht _ IH]; [done|].
  rewrite login_loop_enter by done. unfold bind at 1. rewrite Hs.
  unfold bind at 1. rewrite Ht. unfold bind at 1, ret at 1. exact IH.
Qed.

Lemma iterates_counts fuel a st fuel' a' st' :
  iterates BASE_HEADERS AUTH_FORMS transport fuel a st fuel' a' st' ->
  exists n : nat, fuel = (n + fuel')%nat /\ a' = a + Z.of_nat n /\
    max_auth_attempts (self st') = max_auth_attempts (self st) /\
    is_authenticated (self st') = is_authenticated (self st).
Proof.
  induction 1 as [fuel a st | fuel a st st1 fuel' a' st' Hf Ha Hs Ht _ IH].
  - exists 0%nat. split_and!; [done | lia | done | done].
  - destruct IH as (n & -> & -> & Hm & Hfl).
    destruct (try_forms_spec AUTH_FORMS st) as (r & st2 & Hr & _ & (_ & F & _) & _).
    rewrite Ht in Hr. injection Hr as <- <-.
    destruct F as (_ & Hmax & _ & _ & Hflag & _).
    exists (S n). split_and!; [done | lia | congruence | congruence].
Qed.

(** The invariant of the loop: how it can end, and in which state. *)
Lemma login_loop_inv (fuel : nat) (a : Z) (st : State) (r : result Z) (st' : State) :
  login_loop fuel a st = (r, st') ->
  max_auth_attempts (self st') = max_auth_attempts (self st) /\
  match r with
  | Ok a' =>
      a <= a' /\
      (is_authenticated (self st') = true /\
         (is_authenticated (self st) = true /\ a' = a \/ a' < max_auth_attempts (self st))
       \/
       is_authenticated (self st') = false /\ max_auth_attempts (self st) <= a' /\
         (a <= max_auth_attempts (self st) -> a' = max_auth_attempts (self st)))
  | Raised _ =>
      is_authenticated (self st') = false /\ is_authenticated (self st) = false
  | OutOfFuel =>
      is_authenticated (self st) = false /\ Z.of_nat fuel < max_auth_attempts (self st) - a
  end.
Proof.
  revert a st. induction fuel as [|fuel IH]; intros a st H.
  - destruct (is_authenticated (self st)) eqn:Hf.
    { rewrite login_loop_exit in H by auto. injection H as <- <-.
      split; [done|]. split; [lia|]. left. auto. }
    destruct (decide (a < max_auth_attempts (self st))) as [Ha|Ha].
    + simpl in H. unfold bind, get_self in H. rewrite Hf in H.
      assert ((a <? max_auth_attempts (self st)) = true) as Hlt by lia.
      rewrite Hlt in H. simpl in H. unfold lift in H. injection H as <- <-.
      split; [done|]. split; [done | lia].
    + rewrite login_loop_exit in H by (right; lia). injection H as <- <-.
      split; [done|]. split; [lia|]. right. split_and!; [done | lia | lia].
  - destruct (is_authenticated (self st)) eqn:Hf.
    { rewrite login_loop_exit in H by auto. injection H as <- <-.
      split; [done|]. split; [lia|]. left. auto. }
    destruct (decide (a < max_auth_attempts (self st))) as [Ha|Ha].
    2:{ rewrite login_loop_exit in H by (right; lia). injection H as <- <-.
        split; [done|]. split; [lia|]. right. split_and!; [done | lia | lia]. }
    rewrite login_loop_enter in H by done. unfold bind at 1 in H.
    pose proof (signed_in_state st) as Hst. pose proof (signed_in_fuel st) as Hfu.
    destruct (signed_in st) as [[[|]| e |] st0]; simpl in Hst, Hfu; subst st0; [| | |done].
    + (* signed in: the flag is set and the loop is left *)
      injection H as <- <-. simpl. split; [done|]. split; [lia|]. left. split; [done|]. by right.
    + destruct (try_forms_spec AUTH_FORMS st) as (rf & st1 & Hr & Hne & (_ & F & _) & Hfalse).
      unfold bind at 1 in H. rewrite Hr in H.
      destruct F as (_ & Hmax & _ & _ & Hflag & _).
      destruct rf as [[|]| e |]; [| | |done].
      * unfold bind at 1, ret at 1 in H. apply IH in H as [Hm Hres].
        rewrite Hmax in Hm. split; [done|].
        rewrite Hmax, Hflag, Hf in Hres.
        destruct r as [a'| e |].
        -- destruct Hres as [Hle Hres]. split; [lia|].
           destruct Hres as [[Ht [[? _]|Hlt]] | (Hfl & Hge & Hexact)]; [done | | ].
           ++ left. split; [done|]. by right.
           ++ right. split_and!; [done | done |]. intros _. apply Hexact. lia.
        -- by destruct Hres.
        -- destruct Hres as [_ Hres]. split; [done | lia].
      * destruct (Hfalse eq_refl) as [-> _].
        destruct (no_form_found_raises st) as [e He].
        unfold bind at 1 in H. rewrite He in H. injection H as <- <-. done.
      * injection H as <- <-. split; [done|]. split; congruence.
    + injection H as <- <-. done.
Qed.

(** ** Entry, logout and the whole of [login] *)

Lemma stale_session_spec (st : State) (r : Response) :
  last_response (self st) = Some r ->
  stale_session st =
    (Ok (truthy (auth_cookies_stored (self st)) &&
         String.eqb (Py.split_head "?" (url r)) SIGN_IN_REDIRECT_URL), st).
Proof.
  intros Hr. unfold stale_session, bind, get_self, the_last_response, bind, get_self.
  destruct (truthy _); [|done]. by rewrite Hr.
Qed.

(** [logout]: one request to the sign-out endpoint, then the cookie store
    file is removed, the transport closed and replaced by a fresh one, and
    the flag reset. *)
Lemma logout_spec (st : State) :
  exists resp jar fs' evs,
    transport (events st) (outbound "GET" SIGN_OUT_URL no_kwargs) (session (self st))
      = (resp, jar) /\
    logout st =
      (Ok tt,
       mkState (cwd st)
         (set_is_authenticated false
            (set_session [] (set_last_response resp (set_session jar (self st)))))
         fs'
         (events st ++ EvRequest (outbound "GET" SIGN_OUT_URL no_kwargs) :: evs ++
            [EvRemove (cookie_jar_path (self st)); EvClose])) /\
    net_events evs = [] /\
    fs' !! abspath (cwd st) (cookie_jar_path (self st)) = None.
Proof.
  unfold logout, bind at 1, get.
  destruct (request_spec "GET" SIGN_OUT_URL no_kwargs st) as (fs1 & evs & -> & Hnet & Hex & _).
  destruct (transport _ _ _) as [resp jar]. simpl.
  unfold bind, get_self, os_path_exists, os_remove, emit, modify_self, ret. simpl.
  rewrite bool_decide_eq_true_2 by done. simpl.
  exists resp, jar, (delete (abspath (cwd st) (cookie_jar_path (self st))) fs1), evs.
  split; [done|]. split; [|split; [done | apply lookup_delete_eq]].
  by rewrite <- !app_assoc.
Qed.

(** The part of [login] before the loop. *)
Lemma login_entry_spec (st : State) :
  exists r1 st1,
    get SIGN_IN_URL no_kwargs st = (Ok r1, st1) /\
    last_response (self st1) = Some r1 /\
    if truthy (auth_cookies_stored (self st1)) &&
       String.eqb (Py.split_head "?" (url r1)) SIGN_IN_REDIRECT_URL
    then
      exists st2 r3 st3,
        logout st1 = (Ok tt, st2) /\
        get SIGN_IN_URL no_kwargs st2 = (Ok r3, st3) /\
        login_entry st = (Ok tt, st3)
    else login_entry st = (Ok tt, st1).
Proof.
  destruct (request_extends "GET" SIGN_IN_URL no_kwargs st) as (r1 & st1 & Hg & _ & Hl).
  exists r1, st1. split; [done|]. split; [done|].
  assert (login_entry st =
          (if truthy (auth_cookies_stored (self st1)) &&
              String.eqb (Py.split_head "?" (url r1)) SIGN_IN_REDIRECT_URL
           then logout ;;; get SIGN_IN_URL no_kwargs ;;; ret tt
           else ret tt) st1) as ->.
  { unfold login_entry, get, bind at 1. rewrite Hg.
    unfold bind at 1. by rewrite (stale_session_spec st1 r1 Hl). }
  destruct (_ && _); [|done].
  destruct (logout_spec st1) as (resp & jar & fs' & evs & _ & Hlo & _).
  destruct (request_extends "GET" SIGN_IN_URL no_kwargs
              (logout st1).2) as (r3 & st3 & Hg3 & _ & _).
  rewrite Hlo in Hg3. simpl in Hg3.
  eexists _, r3, st3. split; [exact Hlo|]. split; [exact Hg3|].
  unfold bind at 1. rewrite Hlo. unfold bind, get.
  by rewrite Hg3.
Qed.

Lemma login_entry_ok (st : State) :
  exists st1, login_entry st = (Ok tt, st1) /\
    is_Some (last_response (self st1)) /\
    max_auth_attempts (self st1) = max_auth_attempts (self st) /\
    (is_authenticated (self st1) = true -> is_authenticated (self st) = true) /\
    exists evs, events st1 = events st ++ EvRequest (outbound "GET" SIGN_IN_URL no_kwargs) :: evs.
Proof.
  destruct (login_entry_spec st) as (r1 & st1 & Hg & Hl & Hrest).
  pose proof (request_spec "GET" SIGN_IN_URL no_kwargs st) as (fs1 & evs1 & Hg' & _).
  unfold get in Hg. rewrite Hg' in Hg. injection Hg as Hr1 Hst1.
  destruct (_ && _).
  - destruct Hrest as (st2 & r3 & st3 & Hlo & Hg3 & ->).
    exists st3. split; [done|].
    destruct (logout_spec st1) as (resp & jar & fs' & evs & _ & Hlo' & _).
    rewrite Hlo' in Hlo. injection Hlo as Hst2.
    pose proof (request_spec "GET" SIGN_IN_URL no_kwargs st2) as (fs3 & evs3 & Hg3' & _).
    unfold get in Hg3. rewrite Hg3' in Hg3. injection Hg3 as _ Hst3.
    subst st3 st2 st1. simpl. split; [by eexists|]. split; [done|]. split; [done|].
    eexists. rewrite <- !app_assoc. simpl. reflexivity.
  - exists st1. split; [done|]. subst st1. simpl.
    split; [by eexists|]. split; [done|]. split; [done|]. by eexists.
Qed.

(** [login] is its entry, then its loop and the test on the counter. *)
Lemma login_eq (st st1 : State) :
  login_entry st = (Ok tt, st1) -> login st = login_attempts st1.
Proof. intros He. unfold login, bind. by rewrite He. Qed.

Lemma login_attempts_eq (st1 : State) :
  login_attempts st1 =
    match login_loop (Z.to_nat (max_auth_attempts (self st1))) 0 st1 with
    | (Ok a, st2) =>
        if a =? max_auth_attempts (self st2)
        then (Raised (AmazonOrdersAuthError max_attempts_message), st2)
        else (Ok tt, st2)
    | (Raised e, st2) => (Raised e, st2)
    | (OutOfFuel, st2) => (OutOfFuel, st2)
    end.
Proof.
  unfold login_attempts, bind at 1, get_self at 1. unfold bind at 1.
  destruct (login_loop _ 0 st1) as [[a| e |] st2]; [|done..].
  unfold bind, get_self. by destruct (a =? _).
Qed.

(** [login] never runs out of fuel. *)
Lemma login_total (st : State) : (login st).1 <> OutOfFuel.
Proof.
  destruct (login_entry_ok st) as (st1 & He & _).
  rewrite (login_eq _ _ He), login_attempts_eq.
  destruct (login_loop _ 0 st1) as [[a| e |] st2] eqn:Hl.
  - by destruct (a =? _).
  - done.
  - apply login_loop_inv in Hl as [_ [_ Hl]]. lia.
Qed.

(** ** The login flow *)

(** C10. With [max_auth_attempts = 0] the loop body never runs: whatever
    the cookies and the flag, [login] fetches the sign-in entry point and
    then raises the max-attempts error. *)
Theorem login_zero_budget (st : State) :
  max_auth_attempts (self st) = 0 ->
  exists st1 evs,
    login_entry st = (Ok tt, st1) /\
    events st1 = events st ++ EvRequest (outbound "GET" SIGN_IN_URL no_kwargs) :: evs /\
    login_loop (Z.to_nat (max_auth_attempts (self st1))) 0 st1 = (Ok 0, st1) /\
    login st = (Raised (AmazonOrdersAuthError max_attempts_message), st1).
Proof.
  intros Hz. destruct (login_entry_ok st) as (st1 & He & _ & Hm & _ & evs & Hev).
  exists st1, evs. split; [done|]. split; [done|].
  assert (login_loop (Z.to_nat (max_auth_attempts (self st1))) 0 st1 = (Ok 0, st1)) as Hl.
  { apply login_loop_exit. right. lia. }
  split; [done|].
  rewrite (login_eq _ _ He), login_attempts_eq, Hl.
  by assert ((0 =? max_auth_attempts (self st1)) = true) as -> by lia.
Qed.

(** C9, for a budget that is not negative. From a session whose flag is
    down, [login] returns normally only with the flag up, and raises only
    with the flag down. *)
Theorem login_flag (st : State) (r : result unit) (st' : State) :
  is_authenticated (self st) = false ->
  0 <= max_auth_attempts (self st) ->
  login st = (r, st') ->
  match r with
  | Ok _ => is_authenticated (self st') = true
  | Raised _ => is_authenticated (self st') = false
  | OutOfFuel => False
  end.
Proof.
  intros Hf Hn Hlogin.
  destruct (login_entry_ok st) as (st1 & He & _ & Hm & Hfl & _).
  assert (is_authenticated (self st1) = false) as Hf1.
  { destruct (is_authenticated (self st1)); [|done]. by rewrite Hfl in Hf. }
  rewrite (login_eq _ _ He), login_attempts_eq in Hlogin.
  destruct (login_loop _ 0 st1) as [[a| e |] st2] eqn:Hl.
  - apply login_loop_inv in Hl as [Hm2 [_ Hl]]. rewrite Hm2 in Hlogin.
    destruct Hl as [[Ht [[? _]|Hlt]] | (Hfl2 & Hge & Hexact)]; [congruence | |].
    + assert ((a =? max_auth_attempts (self st1)) = false) as Hne by lia.
      rewrite Hne in Hlogin. by injection Hlogin as <- <-.
    + assert ((a =? max_auth_attempts (self st1)) = true) as Heq by lia.
      rewrite Heq in Hlogin. by injection Hlogin as <- <-.
  - apply login_loop_inv in Hl as [_ [Hfl2 _]]. by injection Hlogin as <- <-.
  - apply login_loop_inv in Hl as [_ [_ Hl]]. lia.
Qed.

(** C2, as the code has it. With a budget of [N >= 1]: when [N]
    iterations in a row are each entered, not signed in, and resolved by a
    handler, the loop exits after exactly these [N] iterations and [login]
    raises the max-attempts error; whenever the loop exits without an
    exception, the max-attempts error is raised exactly when the counter
    has reached the budget, which is exactly when the session is not
    authenticated; and an iteration on a page that no handler matches ends
    [login] at once, in the state of that iteration, with an exception
    that is not the max-attempts error: for a response whose status is a
    success, the authentication error for an unknown page. *)
Theorem login_max_attempts (st st1 : State) :
  1 <= max_auth_attempts (self st) ->
  login_entry st = (Ok tt, st1) ->
  (forall a stN,
      iterates BASE_HEADERS AUTH_FORMS transport
        (Z.to_nat (max_auth_attempts (self st))) 0 st1 0 a stN ->
      a = max_auth_attempts (self st) /\
      login_loop (Z.to_nat (max_auth_attempts (self st))) 0 st1 = (Ok a, stN) /\
      login st = (Raised (AmazonOrdersAuthError max_attempts_message), stN)) /\
  (forall a st2,
      login_loop (Z.to_nat (max_auth_attempts (self st))) 0 st1 = (Ok a, st2) ->
      (login st = (Raised (AmazonOrdersAuthError max_attempts_message), st2) <->
       a = max_auth_attempts (self st)) /\
      (a = max_auth_attempts (self st) <-> is_authenticated (self st2) = false) /\
      (a <> max_auth_attempts (self st) -> login st = (Ok tt, st2))) /\
  (forall fuel a stK,
      iterates BASE_HEADERS AUTH_FORMS transport
        (Z.to_nat (max_auth_attempts (self st))) 0 st1 fuel a stK ->
      is_authenticated (self stK) = false ->
      a < max_auth_attempts (self stK) ->
      signed_in stK = (Ok false, stK) ->
      Forall (fun form => select_form form (self stK) = false) AUTH_FORMS ->
      exists e,
        login st = (Raised e, stK) /\
        e <> AmazonOrdersAuthError max_attempts_message /\
        forall r, last_response (self stK) = Some r -> ok r = true ->
          e = AmazonOrdersAuthError
                (unknown_page_message (url r)
                   (if debug (self stK) then EmptyString else debug_hint))).
Proof.
  intros HN He.
  destruct (login_entry_ok st) as (st1' & He' & _ & Hm & _).
  rewrite He in He'. injection He' as <-.
  assert (forall a st2,
    login_loop (Z.to_nat (max_auth_attempts (self st))) 0 st1 = (Ok a, st2) ->
    login st = (if a =? max_auth_attempts (self st)
                then (Raised (AmazonOrdersAuthError max_attempts_message), st2)
                else (Ok tt, st2)) /\
    (a = max_auth_attempts (self st) <-> is_authenticated (self st2) = false)) as Hexit.
  { intros a st2 Hl. rewrite (login_eq _ _ He), login_attempts_eq, Hm, Hl.
    apply login_loop_inv in Hl as [Hm2 [_ Hl]]. rewrite Hm2, Hm. split; [done|].
    rewrite Hm in Hl.
    destruct Hl as [[Ht [[? ->]|Hlt]] | (Hfl2 & Hge & Hexact)].
    - split; [lia | congruence].
    - split; [lia | congruence].
    - split; [done | lia]. }
  split_and!.
  - intros a stN Hit.
    destruct (iterates_counts _ _ _ _ _ _ Hit) as (n & Hfuel & -> & HmN & _).
    assert (0 + Z.of_nat n = max_auth_attempts (self st)) as Ha by lia.
    split; [done|].
    assert (login_loop (Z.to_nat (max_auth_attempts (self st))) 0 st1
            = (Ok (0 + Z.of_nat n), stN)) as Hl.
    { rewrite (iterates_loop _ _ _ _ _ _ Hit). apply login_loop_exit. right. lia. }
    split; [done|].
    destruct (Hexit _ _ Hl) as [-> _].
    by assert ((0 + Z.of_nat n =? max_auth_attempts (self st)) = true) as -> by lia.
  - intros a st2 Hl. destruct (Hexit _ _ Hl) as [Hlogin Hiff].
    split_and!; [|done|].
    + rewrite Hlogin. destruct (a =? _) eqn:E; split; intros; try done; lia.
    + intros Hne. rewrite Hlogin.
      by assert ((a =? max_auth_attempts (self st)) = false) as -> by lia.
  - intros fuel a stK Hit Hf Ha Hs Hno.
    destruct (iterates_counts _ _ _ _ _ _ Hit) as (k & Hfuel & Han & HmK & _).
    destruct fuel as [|fuel]; [lia|].
    destruct (no_form_found_raises stK) as [e Hraise].
    assert (login_loop (S fuel) a stK = (Raised e, stK)) as Hl.
    { rewrite login_loop_enter by done. unfold bind at 1. rewrite Hs.
      unfold bind at 1. rewrite (try_forms_no_match _ _ Hno).
      unfold bind at 1. by rewrite Hraise. }
    exists e. split_and!.
    + by rewrite (login_eq _ _ He), login_attempts_eq, Hm,
        (iterates_loop _ _ _ _ _ _ Hit), Hl.
    + by apply (no_form_found_not_max stK).
    + intros r Hr Hok. rewrite (no_form_found_spec stK r Hr), Hok in Hraise.
      by injection Hraise as <-.
Qed.

(** C1, as the code has it by design. On every iteration of the loop in
    which no handler matches, [login] raises at once, in the state of that
    iteration: no request is sent and no further iteration runs. When the
    status is a success ([ok]), the exception is the authentication error
    for an unknown page, with the URL of the page and, when the [debug]
    flag is off, the hint to set it. *)
Theorem login_no_match_aborts (st0 st1 : State) (fuel : nat) (a : Z) (st : State) :
  login_entry st0 = (Ok tt, st1) ->
  iterates BASE_HEADERS AUTH_FORMS transport
    (Z.to_nat (max_auth_attempts (self st1))) 0 st1 fuel a st ->
  is_authenticated (self st) = false ->
  a < max_auth_attempts (self st) ->
  signed_in st = (Ok false, st) ->
  Forall (fun form => select_form form (self st) = false) AUTH_FORMS ->
  exists e,
    login st0 = (Raised e, st) /\
    login_loop fuel a st = (Raised e, st) /\
    forall r, last_response (self st) = Some r -> ok r = true ->
      e = AmazonOrdersAuthError
            (unknown_page_message (url r)
               (if debug (self st) then EmptyString else debug_hint)).
Proof.
  intros He Hit Hf Ha Hs Hno.
  destruct (iterates_counts _ _ _ _ _ _ Hit) as (n & Hfuel & Han & Hm & _).
  destruct fuel as [|fuel]; [lia|].
  destruct (no_form_found_raises st) as [e Hraise].
  assert (login_loop (S fuel) a st = (Raised e, st)) as Hl.
  { rewrite login_loop_enter by done. unfold bind at 1. rewrite Hs.
    unfold bind at 1. rewrite (try_forms_no_match _ _ Hno).
    unfold bind at 1. by rewrite Hraise. }
  exists e. split_and!; [|done|].
  - by rewrite (login_eq _ _ He), login_attempts_eq, (iterates_loop _ _ _ _ _ _ Hit), Hl.
  - intros r Hr Hok. rewrite (no_form_found_spec st r Hr), Hok in Hraise.
    by injection Hraise as <-.
Qed.

(** C4, with the stale-session test spelled out. On every iteration of
    the loop on which the authentication cookies are stored, or the page
    lacks the signed-out marker and has the signed-in one, [login] sets the
    flag and returns, with no handler run and nothing else changed. And
    [login] on a session whose flag is up, with a budget of at least one,
    returns normally after its one fetch of the entry point, provided that
    fetch does not show the stale-session symptom. *)
Theorem login_signed_in (st0 : State) :
  (forall st1 fuel a st,
      login_entry st0 = (Ok tt, st1) ->
      iterates BASE_HEADERS AUTH_FORMS transport
        (Z.to_nat (max_auth_attempts (self st1))) 0 st1 fuel a st ->
      is_authenticated (self st) = false ->
      a < max_auth_attempts (self st) ->
      (truthy (auth_cookies_stored (self st)) = true \/
       exists r, last_response (self st) = Some r /\
         Py.contains "Hello, sign in" (text r) = false /\
         Py.contains "nav-item-signout" (text r) = true) ->
      login st0 =
        (Ok tt,
         mkState (cwd st) (set_is_authenticated true (self st)) (files st) (events st))) /\
  (forall r1 st1,
      is_authenticated (self st0) = true ->
      1 <= max_auth_attempts (self st0) ->
      get SIGN_IN_URL no_kwargs st0 = (Ok r1, st1) ->
      truthy (auth_cookies_stored (self st1)) &&
        String.eqb (Py.split_head "?" (url r1)) SIGN_IN_REDIRECT_URL = false ->
      login st0 = (Ok tt, st1) /\ is_authenticated (self st1) = true /\
      net_events (events st1) =
        net_events (events st0) ++ [EvRequest (outbound "GET" SIGN_IN_URL no_kwargs)]).
Proof.
  split.
  - intros st1 fuel a st He Hit Hf Ha Hsig.
    destruct (iterates_counts _ _ _ _ _ _ Hit) as (n & Hfuel & Han & Hm & _).
    destruct fuel as [|fuel]; [lia|].
    apply signed_in_true in Hsig.
    rewrite (login_eq _ _ He), login_attempts_eq, (iterates_loop _ _ _ _ _ _ Hit).
    rewrite login_loop_enter by done. unfold bind at 1. rewrite Hsig.
    unfold bind, modify_self, ret. simpl.
    by assert ((a =? max_auth_attempts (self st)) = false) as -> by lia.
  - intros r1 st1 Hf HN Hg Hstale.
    destruct (login_entry_spec st0) as (r1' & st1' & Hg' & Hl & Hrest).
    rewrite Hg in Hg'. injection Hg' as <- <-. rewrite Hstale in Hrest.
    pose proof (request_spec "GET" SIGN_IN_URL no_kwargs st0) as (fs1 & evs1 & Hq & Hnet & _).
    unfold get in Hg. rewrite Hq in Hg. injection Hg as _ Hst1.
    assert (is_authenticated (self st1) = true) as Hf1 by (by subst st1).
    assert (max_auth_attempts (self st1) = max_auth_attempts (self st0)) as Hm1
      by (by subst st1).
    split_and!; [|done|].
    + rewrite (login_eq _ _ Hrest), login_attempts_eq.
      rewrite login_loop_exit by auto.
      by assert ((0 =? max_auth_attempts (self st1)) = false) as -> by lia.
    + subst st1. simpl. rewrite net_events_app. simpl. unfold net_events in *.
      simpl. by rewrite Hnet.
Qed.

(** C5. After the first fetch of the entry point: when the authentication
    cookies are stored and the URL of the response, cut at its query
    string, is the sign-in redirect URL, [login] logs out once (one GET of
    the sign-out endpoint, the cookie store file removed, the transport
    closed and replaced by a fresh one, the flag reset) and fetches the
    entry point once more, and only then goes on to the attempt loop;
    otherwise it goes on to the loop at once, with no logout. *)
Theorem login_stale_session (st : State) :
  exists r1 st1,
    get SIGN_IN_URL no_kwargs st = (Ok r1, st1) /\
    (truthy (auth_cookies_stored (self st1)) = true /\
     Py.split_head "?" (url r1) = SIGN_IN_REDIRECT_URL ->
     exists st2 r3 st3 evs,
       logout st1 = (Ok tt, st2) /\
       events st2 = events st1 ++
         EvRequest (outbound "GET" SIGN_OUT_URL no_kwargs) :: evs ++
         [EvRemove (cookie_jar_path (self st)); EvClose] /\
       net_events evs = [] /\
       files st2 !! abspath (cwd st) (cookie_jar_path (self st)) = None /\
       session (self st2) = [] /\
       is_authenticated (self st2) = false /\
       get SIGN_IN_URL no_kwargs st2 = (Ok r3, st3) /\
       is_authenticated (self st3) = false /\
       net_events (events st3) =
         net_events (events st) ++
           [EvRequest (outbound "GET" SIGN_IN_URL no_kwargs);
            EvRequest (outbound "GET" SIGN_OUT_URL no_kwargs);
            EvClose;
            EvRequest (outbound "GET" SIGN_IN_URL no_kwargs)] /\
       login_entry st = (Ok tt, st3) /\
       login st = login_attempts st3) /\
    (~ (truthy (auth_cookies_stored (self st1)) = true /\
        Py.split_head "?" (url r1) = SIGN_IN_REDIRECT_URL) ->
     net_events (events st1) =
       net_events (events st) ++ [EvRequest (outbound "GET" SIGN_IN_URL no_kwargs)] /\
     login_entry st = (Ok tt, st1) /\
     login st = login_attempts st1).
Proof.
  destruct (login_entry_spec st) as (r1 & st1 & Hg & Hl & Hrest).
  exists r1, st1. split; [done|].
  pose proof (request_spec "GET" SIGN_IN_URL no_kwargs st) as (fs1 & evs1 & Hq & Hnet1 & _).
  pose proof Hg as Hg0. unfold get in Hg0. rewrite Hq in Hg0. injection Hg0 as _ Hst1.
  assert (net_events (events st1) =
          net_events (events st) ++ [EvRequest (outbound "GET" SIGN_IN_URL no_kwargs)]) as Hn1.
  { subst st1. simpl. rewrite net_events_app. unfold net_events in *. simpl. by rewrite Hnet1. }
  assert (cookie_jar_path (self st1) = cookie_jar_path (self st)) as Hp1 by (by subst st1).
  assert (cwd st1 = cwd st) as Hw1 by (by subst st1).
  split.
  - intros [Hc Hu]. rewrite Hc, Hu, String.eqb_refl in Hrest. simpl in Hrest.
    destruct Hrest as (st2 & r3 & st3 & Hlo & Hg3 & He).
    destruct (logout_spec st1) as (resp & jar & fs' & evs & _ & Hlo' & Hnet & Hgone).
    rewrite Hlo' in Hlo. injection Hlo as Hst2.
    pose proof (request_spec "GET" SIGN_IN_URL no_kwargs st2) as (fs3 & evs3 & Hq3 & Hnet3 & _).
    pose proof Hg3 as Hg3'. unfold get in Hg3'. rewrite Hq3 in Hg3'. injection Hg3' as _ Hst3.
    exists st2, r3, st3, evs. rewrite Hlo'.
    split_and!; try (by subst st2); try (by subst st3 st2).
    + subst st2. simpl. by rewrite Hp1.
    + subst st2. simpl. by rewrite <- Hp1, <- Hw1.
    + subst st3 st2. simpl. rewrite !net_events_app, Hn1. simpl.
      rewrite !net_events_app, Hnet. unfold net_events in *. simpl.
      rewrite Hnet3. by rewrite <- !app_assoc.
    + by apply login_eq.
  - intros Hnot. split; [done|].
    destruct (truthy _) eqn:Hc; simpl in Hrest.
    + destruct (String.eqb_spec (Py.split_head "?" (url r1)) SIGN_IN_REDIRECT_URL) as [Hu|Hu].
      * by destruct Hnot.
      * split; [done | by apply login_eq].
    + split; [done | by apply login_eq].
Qed.

(** C3, as the code has it. The request that [request] sends carries, for
    every key of the base header set, the base value, whatever the caller
    supplied for it; the caller's values are used for the other keys. *)
Theorem request_headers (method target : string) (kw : Kwargs) (st : State) :
  exists resp st' evs,
    request method target kw st = (Ok resp, st') /\
    events st' = events st ++ EvRequest (outbound method target kw) :: evs /\
    net_events evs = [] /\
    forall k,
      headers (outbound method target kw) !! k =
        match BASE_HEADERS !! k with
        | Some v => Some v
        | None => default ∅ (kw_headers kw) !! k
        end.
Proof.
  destruct (request_spec method target kw st) as (fs' & evs & Hq & Hnet & _).
  eexists _, _, evs. split; [exact Hq|]. split; [done|]. split; [done|].
  intros k. unfold outbound. simpl. unfold merged_headers.
  rewrite lookup_union. destruct (BASE_HEADERS !! k) as [v|] eqn:Hb; simpl.
  - by destruct (default ∅ (kw_headers kw) !! k).
  - by destruct (default ∅ (kw_headers kw) !! k).
Qed.

(** ** Cookie persistence *)

Lemma truthy_reloaded (d : gmap string (option string)) (n : string) :
  truthy (dict_get ((fun v => stored_value (stored_value v)) <$> d) n) =
  truthy (dict_get d n).
Proof.
  unfold dict_get. rewrite lookup_fmap. destruct (d !! n) as [v|]; simpl; [|done].
  by rewrite !truthy_stored_value.
Qed.

Lemma init_reads_json (u pw : string) (dbg : bool) (n : Z) (cjp od : option string)
    (wd : string) (fs : gmap string FileData) (d : gmap string (option string)) :
  Py.dirname (path_or_default cjp DEFAULT_COOKIE_JAR_PATH) <> EmptyString ->
  fs !! abspath wd (path_or_default cjp DEFAULT_COOKIE_JAR_PATH) = Some (JsonText d) ->
  exists s',
    init u pw dbg n cjp od wd fs = Ok s' /\
    session s' = jar_update (cookiejar_from_dict d) [] /\
    cookie_jar_path s' = path_or_default cjp DEFAULT_COOKIE_JAR_PATH /\
    is_authenticated s' = false.
Proof.
  intros Hdir Hf. unfold init. apply String.eqb_neq in Hdir. rewrite Hdir, Hf.
  by eexists.
Qed.

(** A cookie jar path needs a directory part: without one the constructor
    raises, whatever the files. *)
Lemma init_no_directory (u pw : string) (dbg : bool) (n : Z) (cjp od : option string)
    (wd : string) (fs : gmap string FileData) :
  Py.dirname (path_or_default cjp DEFAULT_COOKIE_JAR_PATH) = EmptyString ->
  init u pw dbg n cjp od wd fs = Raised (FileNotFoundError EmptyString).
Proof. intros Hdir. unfold init. by rewrite Hdir. Qed.

(** Where the round trip of the cookies holds. Once [request] has
    persisted the jar, a new session made with the same cookie jar path (in
    the same working directory) loads a jar on which [auth_cookies_stored]
    has the truth value it had on the jar that was persisted. This holds
    right after the persistence block and, unless the debug capture is on
    and goes to the cookie store file itself, at the end of [request]. *)
Lemma cookies_reloaded_truth (u pw : string) (dbg : bool) (n : Z) (cjp od : option string)
    (st : State) :
  cookie_jar_path (self st) = path_or_default cjp DEFAULT_COOKIE_JAR_PATH ->
  Py.dirname (cookie_jar_path (self st)) <> EmptyString ->
  (exists s',
     init u pw dbg n cjp od (cwd st) (files (persist_cookies st).2) = Ok s' /\
     truthy (auth_cookies_stored s') = truthy (auth_cookies_stored (self st))) /\
  (forall method target kw,
     debug (self st) = false \/
     abspath (cwd st)
       (capture_path (self st) (cwd st)
          (<[abspath (cwd st) (cookie_jar_path (self st)) :=
               JsonText (dict_from_cookiejar
                 (transport (events st) (outbound method target kw) (session (self st))).2)]>
             (files st))
          (transport (events st) (outbound method target kw) (session (self st))).1)
     <> abspath (cwd st) (cookie_jar_path (self st)) ->
     exists s',
       init u pw dbg n cjp od (cwd st) (files (request method target kw st).2) = Ok s' /\
       truthy (auth_cookies_stored s') =
         truthy (auth_cookies_stored (self (request method target kw st).2))).
Proof.
  intros Hp Hdir. rewrite Hp in Hdir.
  assert (forall fs jar,
    fs !! abspath (cwd st) (path_or_default cjp DEFAULT_COOKIE_JAR_PATH)
      = Some (JsonText (dict_from_cookiejar jar)) ->
    forall s, session s = jar ->
    exists s', init u pw dbg n cjp od (cwd st) fs = Ok s' /\
      truthy (auth_cookies_stored s') = truthy (auth_cookies_stored s)) as Hload.
  { intros fs jar Hf s Hs.
    destruct (init_reads_json u pw dbg n cjp od (cwd st) fs _ Hdir Hf)
      as (s' & Hi & Hj & _).
    exists s'. split; [done|]. unfold auth_cookies_stored.
    rewrite Hj, Hs, dict_reloaded, !truthy_py_and. by rewrite !truthy_reloaded. }
  split.
  - apply (Hload _ (session (self st))); [|done].
    rewrite persist_cookies_eq. simpl. rewrite <- Hp. apply lookup_insert_eq.
  - intros method target kw Hd.
    destruct (request_spec method target kw st) as (fs' & evs & -> & _ & _ & Hfs).
    simpl. eapply Hload; [|done]. rewrite <- Hp. by apply Hfs.
Qed.

End Facts.

(** * The properties on concrete runs *)

(** The sign-in page, then the signed-in page in answer to the credentials:
    [login] succeeds after two requests, the entry fetch and the post of
    the sign-in handler. *)
Example login_two_requests :
  (Scenario.login Scenario.sign_in_then_home (Scenario.fresh 10 false)).1 = Ok tt /\
  is_authenticated
    (self (Scenario.login Scenario.sign_in_then_home (Scenario.fresh 10 false)).2) = true /\
  method <$>
    (omap (fun e => match e with EvRequest r => Some r | _ => None end)
       (events (Scenario.login Scenario.sign_in_then_home (Scenario.fresh 10 false)).2))
  = ["GET"; "POST"].
Proof. split_and!; by vm_compute. Qed.

(** A budget of zero: the entry point is fetched, then the max-attempts
    error is raised. *)
Lemma login_zero_budget_run :
  (Scenario.login (Scenario.always Scenario.home_page) (Scenario.fresh 0 false)).1 =
    Raised (AmazonOrdersAuthError max_attempts_message).
Proof.
  destruct (login_zero_budget Scenario.base_headers Scenario.sign_in_url
              Scenario.sign_in_redirect_url Scenario.sign_out_url Scenario.forms
              (Scenario.always Scenario.home_page) (Scenario.fresh 0 false) eq_refl)
    as (st1 & evs & _ & _ & _ & H).
  unfold Scenario.login. rewrite H. reflexivity.
Defined.

(** A successful login leaves the flag up. *)
Lemma login_flag_run :
  is_authenticated
    (self (Scenario.login (Scenario.always Scenario.home_page) (Scenario.fresh 3 false)).2)
  = true.
Proof.
  apply (login_flag Scenario.base_headers Scenario.sign_in_url
           Scenario.sign_in_redirect_url Scenario.sign_out_url Scenario.forms
           (Scenario.always Scenario.home_page) (Scenario.fresh 3 false) (Ok tt)).
  - reflexivity.
  - by vm_compute.
  - vm_compute. reflexivity.
Defined.

(** C9 as stated fails for a negative budget: the loop and the final test
    are both skipped, and [login] returns with the flag down. *)
Lemma login_flag_negative_budget :
  is_authenticated (self (Scenario.fresh (-1) false)) = false /\
  (Scenario.login (Scenario.always Scenario.sign_in_page) (Scenario.fresh (-1) false)).1
    = Ok tt /\
  is_authenticated
    (self (Scenario.login (Scenario.always Scenario.sign_in_page) (Scenario.fresh (-1) false)).2)
    = false.
Proof. vm_compute. by split_and!. Qed.

(** Two iterations resolved by the sign-in handler exhaust a budget of
    two. *)
Lemma login_max_attempts_run :
  exists stN,
    iterates Scenario.base_headers Scenario.forms (Scenario.always Scenario.sign_in_page)
      2 0 (Scenario.login_entry (Scenario.always Scenario.sign_in_page)
             (Scenario.fresh 2 false)).2
      0 2 stN /\
    Scenario.login (Scenario.always Scenario.sign_in_page) (Scenario.fresh 2 false) =
      (Raised (AmazonOrdersAuthError max_attempts_message), stN).
Proof.
  set (server := Scenario.always Scenario.sign_in_page).
  set (st1 := (Scenario.login_entry server (Scenario.fresh 2 false)).2).
  set (st2 := (try_forms Scenario.base_headers server Scenario.forms st1).2).
  set (st3 := (try_forms Scenario.base_headers server Scenario.forms st2).2).
  assert (iterates Scenario.base_headers Scenario.forms server 2 0 st1 0 2 st3) as Hit.
  { apply (iterates_step _ _ _ 1 0 st1 st2 0 2 st3); [by vm_compute..|].
    apply (iterates_step _ _ _ 0 1 st2 st3 0 2 st3); [by vm_compute..|].
    apply iterates_here. }
  exists st3. split; [exact Hit|].
  destruct (login_max_attempts Scenario.base_headers Scenario.sign_in_url
              Scenario.sign_in_redirect_url Scenario.sign_out_url Scenario.forms
              server (Scenario.fresh 2 false) st1) as [HA _].
  - by vm_compute.
  - vm_compute. reflexivity.
  - destruct (HA 2 st3 Hit) as (_ & _ & H). exact H.
Defined.

(** C2 as stated fails: a page that no handler matches ends the first
    iteration with the unknown-page error, after the one request of the
    entry, whatever is left of the budget. *)
Lemma login_max_attempts_no_match :
  (Scenario.login (Scenario.always Scenario.robot_check_page) (Scenario.fresh 2 false)).1 =
    Raised (AmazonOrdersAuthError
              (unknown_page_message (url Scenario.robot_check_page) debug_hint)) /\
  unknown_page_message (url Scenario.robot_check_page) debug_hint <> max_attempts_message /\
  net_events
    (events (Scenario.login (Scenario.always Scenario.robot_check_page)
               (Scenario.fresh 2 false)).2) =
    [EvRequest (outbound Scenario.base_headers "GET" Scenario.sign_in_url no_kwargs)].
Proof. split_and!; [by vm_compute | by vm_compute | by vm_compute]. Qed.

(** An unknown page on the first iteration. *)
Lemma login_no_match_aborts_run :
  (Scenario.login (Scenario.always Scenario.robot_check_page) (Scenario.fresh 3 false)).1 =
    Raised (AmazonOrdersAuthError
              (unknown_page_message (url Scenario.robot_check_page) debug_hint)).
Proof.
  set (server := Scenario.always Scenario.robot_check_page).
  set (st1 := (Scenario.login_entry server (Scenario.fresh 3 false)).2).
  destruct (login_no_match_aborts Scenario.base_headers Scenario.sign_in_url
              Scenario.sign_in_redirect_url Scenario.sign_out_url Scenario.forms
              server (Scenario.fresh 3 false) st1 3 0 st1)
    as (e & Hlogin & _ & Hmsg).
  - vm_compute. reflexivity.
  - apply iterates_here.
  - reflexivity.
  - by vm_compute.
  - vm_compute. reflexivity.
  - repeat constructor.
  - unfold Scenario.login. rewrite Hlogin. simpl. f_equal.
    apply (Hmsg Scenario.robot_check_page); reflexivity.
Defined.

(** C1 as stated fails twice over. With the [debug] flag set the
    unknown-page error carries no hint; and for a status of 404 the format
    call lacks an argument, so that what is raised is an [IndexError], not
    the authentication error. *)
Lemma login_no_match_messages :
  ((Scenario.login (Scenario.always Scenario.robot_check_page) (Scenario.fresh 3 true)).1 =
     Raised (AmazonOrdersAuthError
               (unknown_page_message (url Scenario.robot_check_page) EmptyString)) /\
   Py.contains "debug"
     (unknown_page_message (url Scenario.robot_check_page) EmptyString) = false) /\
  (Scenario.login (Scenario.always Scenario.not_found_page) (Scenario.fresh 3 false)).1 =
    Raised (IndexError "Replacement index 2 out of range for positional args tuple").
Proof. split_and!; by vm_compute. Qed.

(** The request sent for a caller who supplies a [User-Agent]. *)
Lemma request_headers_caller_loses :
  headers
    (outbound Scenario.base_headers "GET" Scenario.sign_in_url
       (mkKwargs (Some {[ "User-Agent" := "curl/8.5" ]}) []))
    !! "User-Agent" = Some "Mozilla/5.0" /\
  exists evs,
    events
      (request Scenario.base_headers (Scenario.always Scenario.home_page) "GET"
         Scenario.sign_in_url (mkKwargs (Some {[ "User-Agent" := "curl/8.5" ]}) [])
         (Scenario.fresh 3 false)).2 =
    EvRequest
      (outbound Scenario.base_headers "GET" Scenario.sign_in_url
         (mkKwargs (Some {[ "User-Agent" := "curl/8.5" ]}) [])) :: evs.
Proof. split; [by vm_compute | eexists; by vm_compute]. Qed.

(** A second [login] on an authenticated session, the server honouring
    it. *)
Lemma login_signed_in_run :
  (Scenario.login (Scenario.always Scenario.home_page) (Scenario.authenticated 3)).1 = Ok tt.
Proof.
  set (server := Scenario.always Scenario.home_page).
  destruct (login_signed_in Scenario.base_headers Scenario.sign_in_url
              Scenario.sign_in_redirect_url Scenario.sign_out_url Scenario.forms
              server (Scenario.authenticated 3)) as [_ H].
  destruct (H Scenario.home_page
              (get Scenario.base_headers server Scenario.sign_in_url no_kwargs
                 (Scenario.authenticated 3)).2) as (Hlogin & _ & _).
  - reflexivity.
  - by vm_compute.
  - vm_compute. reflexivity.
  - vm_compute. reflexivity.
  - unfold Scenario.login. by rewrite Hlogin.
Defined.

(** C4 as stated fails when the server no longer honours the session: the
    flag is up and the budget is three, yet the stale-session logout resets
    the flag, and the page that follows ends [login] with an error. *)
Lemma login_again_stale :
  is_authenticated (self (Scenario.authenticated 3)) = true /\
  truthy (auth_cookies_stored (self (Scenario.authenticated 3))) = true /\
  (Scenario.login (Scenario.always Scenario.robot_check_page) (Scenario.authenticated 3)).1 =
    Raised (AmazonOrdersAuthError
              (unknown_page_message (url Scenario.robot_check_page) debug_hint)) /\
  is_authenticated
    (self (Scenario.login (Scenario.always Scenario.robot_check_page)
             (Scenario.authenticated 3)).2) = false.
Proof. split_and!; by vm_compute. Qed.

(** A stale session: one logout between the two fetches of the entry
    point. *)
Lemma login_stale_session_run :
  net_events
    (events (Scenario.login_entry (Scenario.always Scenario.robot_check_page)
               (Scenario.authenticated 3)).2) =
    [EvRequest (outbound Scenario.base_headers "GET" Scenario.sign_in_url no_kwargs);
     EvRequest (outbound Scenario.base_headers "GET" Scenario.sign_out_url no_kwargs);
     EvClose;
     EvRequest (outbound Scenario.base_headers "GET" Scenario.sign_in_url no_kwargs)].
Proof.
  set (server := Scenario.always Scenario.robot_check_page).
  destruct (login_stale_session Scenario.base_headers Scenario.sign_in_url
              Scenario.sign_in_redirect_url Scenario.sign_out_url Scenario.forms
              server (Scenario.authenticated 3)) as (r1 & st1 & Hg & Hstale & _).
  assert (get Scenario.base_headers server Scenario.sign_in_url no_kwargs
            (Scenario.authenticated 3) =
          (Ok Scenario.robot_check_page,
           (get Scenario.base_headers server Scenario.sign_in_url no_kwargs
              (Scenario.authenticated 3)).2)) as Hrun by (vm_compute; reflexivity).
  rewrite Hrun in Hg. injection Hg as <- <-.
  destruct Hstale as (st2 & r3 & st3 & evs & _ & _ & _ & _ & _ & _ & _ & _ & Hnet & He & _).
  - split; vm_compute; reflexivity.
  - unfold Scenario.login_entry. rewrite He. simpl. rewrite Hnet. reflexivity.
Defined.

(** C6 as stated fails for a cookie that is there with an empty value. *)
Lemma auth_cookies_present_but_empty :
  (exists c, c ∈ jar_cookies (Scenario.auth_jar (Some EmptyString)) /\
             name c = "session-token") /\
  (exists c, c ∈ jar_cookies (Scenario.auth_jar (Some EmptyString)) /\ name c = "x-main") /\
  truthy
    (auth_cookies_stored
       (set_session (Scenario.auth_jar (Some EmptyString))
          (self (Scenario.authenticated 3)))) = false.
Proof.
  split_and!.
  - exists (mkCookie "session-token" (Some "tok") ".amazon.com" "/").
    split; [|reflexivity]. vm_compute. left.
  - exists (mkCookie "x-main" (Some EmptyString) ".amazon.com" "/").
    split; [|reflexivity]. vm_compute. right. left.
  - by vm_compute.
Qed.

(** C7: where the code and the claim part. A debugging session holds
    the authentication cookies and keeps its cookie store in the output
    directory, under the name [signin_0.html]. Right after the persistence
    block of [request] the store holds the jar, and a new session made with
    the same cookie jar path loads it, with [auth_cookies_stored] true as
    before. But the probe for the name of the capture looks into the
    working directory, finds [signin_0.html] free there, and the capture is
    written over the cookie store: when [request] returns, the store holds
    the page, and the constructor of a new session with the same cookie jar
    path raises the error of [json.loads]. *)
Theorem cookie_store_overwritten :
  truthy (auth_cookies_stored (self Cases.capture_on_store)) = true /\
  match
    init "conf/cookies.json" "out" Scenario.no_json "user@example.com" "secret" true 10
      (Some "out/signin_0.html") (Some "out") "/home/user"
      (files (persist_cookies Cases.capture_on_store).2)
  with
  | Ok s' => truthy (auth_cookies_stored s')
  | _ => false
  end = true /\
  (request Scenario.base_headers (Scenario.always Scenario.sign_in_page) "GET"
     Scenario.sign_in_url no_kwargs Cases.capture_on_store).1 =
    Ok Scenario.sign_in_page /\
  truthy
    (auth_cookies_stored
       (self (request Scenario.base_headers (Scenario.always Scenario.sign_in_page) "GET"
                Scenario.sign_in_url no_kwargs Cases.capture_on_store).2)) = true /\
  files
    (request Scenario.base_headers (Scenario.always Scenario.sign_in_page) "GET"
       Scenario.sign_in_url no_kwargs Cases.capture_on_store).2
    !! "/home/user/out/signin_0.html" =
    Some (PlainText (text Scenario.sign_in_page)) /\
  init "conf/cookies.json" "out" Scenario.no_json "user@example.com" "secret" true 10
    (Some "out/signin_0.html") (Some "out") "/home/user"
    (files
       (request Scenario.base_headers (Scenario.always Scenario.sign_in_page) "GET"
          Scenario.sign_in_url no_kwargs Cases.capture_on_store).2) =
    Raised (JSONDecodeError (text Scenario.sign_in_page)).
Proof. split_and!; by vm_compute. Qed.

(** C8: where the code and the claim part. The probe looks for the
    numbered name in the working directory while the capture is written in
    the output directory, so a capture that is already there is written
    over, under the number 0; and [strip] takes its argument for a set of
    characters, so the page [mfa] gives the name [fa]. *)
Theorem debug_capture_name :
  (files Scenario.with_capture !! "/home/user/out/signin_0.html" =
     Some (PlainText "<p>an earlier capture</p>") /\
   files
     (request Scenario.base_headers (Scenario.always Scenario.sign_in_page) "GET"
        Scenario.sign_in_url no_kwargs Scenario.with_capture).2
     !! "/home/user/out/signin_0.html" =
     Some (PlainText (text Scenario.sign_in_page)) /\
   files
     (request Scenario.base_headers (Scenario.always Scenario.sign_in_page) "GET"
        Scenario.sign_in_url no_kwargs Scenario.with_capture).2
     !! "/home/user/out/signin_1.html" =
     None) /\
  (Py.basename (Py.urlparse_path (url Scenario.mfa_page)) = "mfa" /\
   files
     (request Scenario.base_headers (Scenario.always Scenario.mfa_page) "GET"
        Scenario.sign_in_url no_kwargs (Scenario.fresh 10 true)).2
     !! "/home/user/out/fa_0.html" =
     Some (PlainText (text Scenario.mfa_page)) /\
   files
     (request Scenario.base_headers (Scenario.always Scenario.mfa_page) "GET"
        Scenario.sign_in_url no_kwargs (Scenario.fresh 10 true)).2
     !! "/home/user/out/mfa_0.html" =
     None).
Proof. split_and!; by vm_compute. Qed.

(** * Further properties of the session *)

Section MoreFacts.

Variable BASE_HEADERS : gmap string string.
Variables SIGN_IN_URL SIGN_IN_REDIRECT_URL SIGN_OUT_URL : string.
Variables DEFAULT_COOKIE_JAR_PATH DEFAULT_OUTPUT_DIR : string.
Variable AUTH_FORMS : list AuthForm.
Variable transport : list Event -> Request -> CookieJar -> Response * CookieJar.
Variable json_loads : string -> result (gmap string (option string)).

Local Abbreviation outbound := (outbound BASE_HEADERS).
Local Abbreviation request := (request BASE_HEADERS transport).
Local Abbreviation get := (get BASE_HEADERS transport).
Local Abbreviation run_form := (run_form BASE_HEADERS transport).
Local Abbreviation try_forms := (try_forms BASE_HEADERS transport).
Local Abbreviation logout := (logout BASE_HEADERS SIGN_OUT_URL transport).
Local Abbreviation login_loop :=
  (login_loop BASE_HEADERS AUTH_FORMS transport).
Local Abbreviation login_entry :=
  (login_entry BASE_HEADERS SIGN_IN_URL SIGN_IN_REDIRECT_URL SIGN_OUT_URL transport).
Local Abbreviation login_attempts := (login_attempts BASE_HEADERS AUTH_FORMS transport).
Local Abbreviation login :=
  (login BASE_HEADERS SIGN_IN_URL SIGN_IN_REDIRECT_URL SIGN_OUT_URL AUTH_FORMS transport).
Local Abbreviation init := (init DEFAULT_COOKIE_JAR_PATH DEFAULT_OUTPUT_DIR json_loads).

(** ** [request] *)



(** ** The debug capture *)







Lemma prefix_slash_mem (s : string) :
  Py.mem_char "/" s = false -> String.prefix "/" s = false.
Proof.
  destruct s as [|c s]; [done|]. cbn [Py.mem_char]. intros H.
  apply orb_false_iff in H as [Hc _]. apply Ascii.eqb_neq in Hc.
  cbn [String.prefix]. by destruct (ascii_dec "/" c).
Qed.



(** X2. For an absolute [http] or [https] URL without square brackets,
    [_get_page_from_url] returns, changes nothing, and names the file
    [<page>_<n>.html], where [<page>] is the base name of the path of the
    URL stripped of the characters of [.html] at both ends, and [n] is the
    least number for which no file of that name is in the working
    directory. *)
Theorem get_page_from_url_name (u : string) (st : State) :
  http_url u = true ->
  exists n : nat,
    _get_page_from_url u st =
      (Ok (Py.strip ".html" (Py.basename (Py.urlparse_path u)) +:+ "_" +:+ pretty n +:+ ".html"),
       st) /\
    files st !! abspath (cwd st)
      (page_file (Py.strip ".html" (Py.basename (Py.urlparse_path u))) n) = None /\
    forall j, (j < n)%nat ->
      is_Some (files st !! abspath (cwd st)
                 (page_file (Py.strip ".html" (Py.basename (Py.urlparse_path u))) j)).
Proof.
  intros _.
  destruct (get_page_from_url_least u st) as (n & Hn & Hfree & Hbelow).
  exists n. split; [exact Hn|]. unfold isfile in *. split.
  - apply bool_decide_eq_false in Hfree. by apply eq_None_not_Some.
  - intros j Hj. specialize (Hbelow j Hj). by apply bool_decide_eq_true in Hbelow.
Qed.


(** ** [logout] and [__init__] *)

(** X4. Whenever [logout] returns, it has sent one request, to the
    sign-out endpoint, and closed the transport; it leaves an empty jar, no
    authentication cookies, the flag down and no cookie store file, so that
    a session made afterwards with the same cookie jar path (one with a
    directory part, as the constructor needs) starts with an empty jar. *)
Theorem logout_forgets (u pw : string) (dbg : bool) (n : Z) (cjp od : option string)
    (st st' : State) :
  cookie_jar_path (self st) = path_or_default cjp DEFAULT_COOKIE_JAR_PATH ->
  Py.dirname (cookie_jar_path (self st)) <> EmptyString ->
  logout st = (Ok tt, st') ->
  session (self st') = [] /\
  auth_cookies_stored (self st') = None /\
  is_authenticated (self st') = false /\
  files st' !! abspath (cwd st) (cookie_jar_path (self st)) = None /\
  net_events (events st') =
    net_events (events st) ++ [EvRequest (outbound "GET" SIGN_OUT_URL no_kwargs); EvClose] /\
  init u pw dbg n cjp od (cwd st) (files st') =
    Ok (mkSession u pw dbg n (cookie_jar_path (self st))
          (path_or_default od DEFAULT_OUTPUT_DIR) [] None false).
Proof.
  intros Hp Hdir Hlogout.
  destruct (logout_spec BASE_HEADERS SIGN_OUT_URL transport st)
    as (resp & jar & fs' & evs & _ & Hq & Hnet & Hgone).
  rewrite Hq in Hlogout. injection Hlogout as <-.
  simpl. split_and!; try done.
  - rewrite !net_events_app. simpl. rewrite net_events_app, Hnet. reflexivity.
  - unfold init. rewrite <- Hp. apply String.eqb_neq in Hdir. rewrite Hdir, Hgone. done.
Qed.

(** X5. The cookies that the persistence of [request] writes are the
    cookies a new session made with the same cookie jar path loads, when
    the path has a directory part (without one the constructor raises): the
    loaded jar has a cookie for exactly the same names, and every value that
    does not begin with a double quote comes back as it was (one that is
    wrapped in double quotes loses its escaped quotes on the way). *)
Theorem cookies_reloaded (u pw : string) (dbg : bool) (n : Z) (cjp od : option string)
    (st : State) :
  cookie_jar_path (self st) = path_or_default cjp DEFAULT_COOKIE_JAR_PATH ->
  Py.dirname (cookie_jar_path (self st)) <> EmptyString ->
  exists s',
    init u pw dbg n cjp od (cwd st) (files (persist_cookies st).2) = Ok s' /\
    is_authenticated s' = false /\
    dict_from_cookiejar (session s') =
      (fun v => stored_value (stored_value v)) <$> dict_from_cookiejar (session (self st)) /\
    (forall k, is_Some (dict_from_cookiejar (session s') !! k) <->
               is_Some (dict_from_cookiejar (session (self st)) !! k)) /\
    (forall k v,
       dict_from_cookiejar (session (self st)) !! k = Some v ->
       (forall s, v = Some s -> String.prefix (String "034"%char EmptyString) s = false) ->
       dict_from_cookiejar (session s') !! k = Some v).
Proof.
  intros Hp Hdir.
  destruct (init_reads_json DEFAULT_COOKIE_JAR_PATH DEFAULT_OUTPUT_DIR json_loads
              u pw dbg n cjp od (cwd st) (files (persist_cookies st).2)
              (dict_from_cookiejar (session (self st)))) as (s' & Hi & Hj & _ & Hf).
  { by rewrite <- Hp. }
  { rewrite persist_cookies_eq. simpl. rewrite <- Hp. apply lookup_insert_eq. }
  exists s'. rewrite Hj, dict_reloaded. split_and!; [done | done | done | |].
  - intros k. rewrite lookup_fmap. by rewrite fmap_is_Some.
  - intros k v Hk Hv. rewrite lookup_fmap, Hk. simpl. f_equal.
    destruct v as [s|]; [|done]. simpl. rewrite (Hv s eq_refl). simpl.
    by rewrite (Hv s eq_refl).
Qed.

(** ** [login] *)

(** What every [request] keeps, every handler keeps. *)
Lemma run_form_invariant (I : State -> Prop) :
  (forall method target kw st, I st -> I (request method target kw st).2) ->
  forall a st, I st -> I (run_form a st).2.
Proof.
  intros Hreq. induction a as [| e | method target kw k IH]; intros st HI; simpl; [done..|].
  destruct (request_extends BASE_HEADERS transport method target kw st)
    as (resp & st1 & Hr & _ & _).
  unfold bind. pose proof (Hreq method target kw st HI) as HI1.
  rewrite Hr in *. simpl in HI1. by apply IH.
Qed.

Lemma try_forms_invariant (I : State -> Prop) :
  (forall method target kw st, I st -> I (request method target kw st).2) ->
  forall forms st, I st -> I (try_forms forms st).2.
Proof.
  intros Hreq forms st HI. rewrite try_forms_find.
  destruct (List.find _ forms) as [form|]; [|done].
  pose proof (run_form_invariant I Hreq (fill_and_submit form (self st)) st HI) as H.
  unfold bind. by destruct (run_form _ st) as [[[]| e |] st1].
Qed.

(** What every [request] keeps, and the raising of the flag keeps, the
    attempt loop keeps. *)
Lemma login_loop_invariant (I : State -> Prop) :
  (forall method target kw st, I st -> I (request method target kw st).2) ->
  (forall st,
     I st -> I (mkState (cwd st) (set_is_authenticated true (self st)) (files st) (events st))) ->
  forall fuel a st, I st -> I (login_loop fuel a st).2.
Proof.
  intros Hreq Hflag. induction fuel as [|fuel IH]; intros a st HI.
  - simpl. unfold bind, get_self. by destruct (_ && _).
  - destruct (is_authenticated (self st)) eqn:Hf.
    { by rewrite login_loop_exit by auto. }
    destruct (decide (a < max_auth_attempts (self st))) as [Ha|Ha].
    2:{ by rewrite login_loop_exit by (right; lia). }
    rewrite login_loop_enter by done. unfold bind at 1.
    pose proof (signed_in_state st) as Hst.
    destruct (signed_in st) as [[[|]| e |] st0]; simpl in Hst; subst st0; [| |done..].
    + simpl. by apply Hflag.
    + pose proof (try_forms_invariant I Hreq AUTH_FORMS st HI) as H1.
      unfold bind at 1. destruct (try_forms AUTH_FORMS st) as [[[|]| e |] st1]; simpl in H1.
      * unfold bind at 1, ret at 1. by apply IH.
      * destruct (no_form_found_raises st1) as [e He].
        unfold bind at 1. by rewrite He.
      * done.
      * done.
Qed.

Lemma login_entry_invariant (I : State -> Prop) :
  (forall method target kw st, I st -> I (request method target kw st).2) ->
  (forall st, I (get SIGN_IN_URL no_kwargs st).2 ->
              I (get SIGN_IN_URL no_kwargs (logout (get SIGN_IN_URL no_kwargs st).2).2).2) ->
  forall st, I (get SIGN_IN_URL no_kwargs st).2 -> I (login_entry st).2.
Proof.
  intros Hreq Hlogout st HI.
  destruct (login_entry_spec BASE_HEADERS SIGN_IN_URL SIGN_IN_REDIRECT_URL SIGN_OUT_URL
              transport st) as (r1 & st1 & Hg & _ & Hrest).
  specialize (Hlogout st HI). rewrite Hg in *. simpl in *.
  destruct (_ && _).
  - destruct Hrest as (st2 & r3 & st3 & Hlo & Hg3 & ->).
    rewrite Hlo in Hlogout. simpl in Hlogout. by rewrite Hg3 in Hlogout.
  - by rewrite Hrest.
Qed.

(** The invariant of a whole [login]. *)
Lemma login_invariant (I : State -> Prop) :
  (forall method target kw st, I st -> I (request method target kw st).2) ->
  (forall st,
     I st -> I (mkState (cwd st) (set_is_authenticated true (self st)) (files st) (events st))) ->
  (forall st, I (get SIGN_IN_URL no_kwargs st).2 ->
              I (get SIGN_IN_URL no_kwargs (logout (get SIGN_IN_URL no_kwargs st).2).2).2) ->
  forall st, I (get SIGN_IN_URL no_kwargs st).2 -> I (login st).2.
Proof.
  intros Hreq Hflag Hlogout st HI.
  pose proof (login_entry_invariant I Hreq Hlogout st HI) as H1.
  destruct (login_entry_ok BASE_HEADERS SIGN_IN_URL SIGN_IN_REDIRECT_URL SIGN_OUT_URL
              transport st) as (st1 & He & _).
  rewrite He in H1. simpl in H1.
  rewrite (login_eq _ _ _ _ _ _ _ _ He), login_attempts_eq.
  pose proof (login_loop_invariant I Hreq Hflag
                (Z.to_nat (max_auth_attempts (self st1))) 0 st1 H1) as H2.
  destruct (login_loop _ 0 st1) as [[a| e |] st2]; simpl in *; [|done..].
  by destruct (a =? _).
Qed.

Lemma request_synced (st0 : State) (method target : string) (kw : Kwargs) (st : State) :
  cwd st = cwd st0 /\ cookie_jar_path (self st) = cookie_jar_path (self st0) /\
  debug (self st) = false ->
  cwd (request method target kw st).2 = cwd st0 /\
  cookie_jar_path (self (request method target kw st).2) = cookie_jar_path (self st0) /\
  debug (self (request method target kw st).2) = false /\
  synced (request method target kw st).2.
Proof.
  intros (Hw & Hp & Hd).
  destruct (request_spec BASE_HEADERS transport method target kw st)
    as (fs' & evs & -> & _ & _ & Hfs).
  unfold synced. simpl. split_and!; [done..|]. apply Hfs. by left.
Qed.

(** X6. With the [debug] flag off, whatever way [login] ends, it leaves the
    cookie store file holding the dictionary of the jar as it is then, under
    the path and in the working directory it started with: a session made
    afterwards with the same cookie jar path (one with a directory part, as
    the constructor needs) loads a jar on which [auth_cookies_stored] has
    the same truth value. *)
Theorem login_persists_cookies (u pw : string) (dbg : bool) (n : Z) (cjp od : option string)
    (st : State) :
  debug (self st) = false ->
  cookie_jar_path (self st) = path_or_default cjp DEFAULT_COOKIE_JAR_PATH ->
  Py.dirname (cookie_jar_path (self st)) <> EmptyString ->
  cwd (login st).2 = cwd st /\
  cookie_jar_path (self (login st).2) = cookie_jar_path (self st) /\
  files (login st).2 !! abspath (cwd st) (cookie_jar_path (self st)) =
    Some (JsonText (dict_from_cookiejar (session (self (login st).2)))) /\
  exists s',
    init u pw dbg n cjp od (cwd st) (files (login st).2) = Ok s' /\
    truthy (auth_cookies_stored s') = truthy (auth_cookies_stored (self (login st).2)).
Proof.
  intros Hd Hp Hdir.
  set (I := fun st' : State =>
    cwd st' = cwd st /\ cookie_jar_path (self st') = cookie_jar_path (self st) /\
    debug (self st') = false /\ synced st').
  assert (I (login st).2) as (Hw & Hp' & _ & Hs).
  { apply login_invariant.
    - intros method target kw st1 (Hw1 & Hp1 & Hd1 & _). by apply request_synced.
    - intros st1 (Hw1 & Hp1 & Hd1 & Hs1). done.
    - intros st1 (Hw1 & Hp1 & Hd1 & _).
      apply request_synced.
      destruct (logout_spec BASE_HEADERS SIGN_OUT_URL transport
                  (get SIGN_IN_URL no_kwargs st1).2)
        as (resp & jar & fs' & evs & _ & -> & _ & _).
      simpl in *. done.
    - by apply request_synced. }
  unfold synced in Hs. rewrite Hw, Hp' in Hs.
  split_and!; [done..|].
  destruct (init_reads_json DEFAULT_COOKIE_JAR_PATH DEFAULT_OUTPUT_DIR json_loads
              u pw dbg n cjp od (cwd st) (files (login st).2)
              (dict_from_cookiejar (session (self (login st).2)))) as (s' & Hi & Hj & _).
  { by rewrite <- Hp. }
  { by rewrite <- Hp. }
  exists s'. split; [done|]. unfold auth_cookies_stored.
  rewrite Hj, dict_reloaded, !truthy_py_and. by rewrite !truthy_reloaded.
Qed.

(** X7. The first I/O of [login] is the fetch of the sign-in entry point,
    with the base headers alone; and [login] never changes the working
    directory or the configuration of the session. *)
Theorem login_first_request (st : State) :
  (exists evs,
     events (login st).2 =
       events st ++ EvRequest (outbound "GET" SIGN_IN_URL no_kwargs) :: evs) /\
  cwd (login st).2 = cwd st /\
  debug (self (login st).2) = debug (self st) /\
  max_auth_attempts (self (login st).2) = max_auth_attempts (self st) /\
  cookie_jar_path (self (login st).2) = cookie_jar_path (self st) /\
  output_dir (self (login st).2) = output_dir (self st).
Proof.
  set (I := fun st' : State =>
    (exists evs,
       events st' = events st ++ EvRequest (outbound "GET" SIGN_IN_URL no_kwargs) :: evs) /\
    cwd st' = cwd st /\ debug (self st') = debug (self st) /\
    max_auth_attempts (self st') = max_auth_attempts (self st) /\
    cookie_jar_path (self st') = cookie_jar_path (self st) /\
    output_dir (self st') = output_dir (self st)).
  assert (forall method target kw st1, I st1 -> I (request method target kw st1).2) as Hreq.
  { intros method target kw st1 ([evs Hev] & H).
    destruct (request_spec BASE_HEADERS transport method target kw st1)
      as (fs' & evs' & -> & _). simpl. split; [|done].
    eexists. rewrite Hev, <- app_assoc. simpl. reflexivity. }
  apply (login_invariant I); [exact Hreq | by intros st1 H | |].
  - intros st1 HI. apply Hreq.
    destruct (logout_spec BASE_HEADERS SIGN_OUT_URL transport
                (get SIGN_IN_URL no_kwargs st1).2)
      as (resp & jar & fs' & evs & _ & -> & _ & _).
    destruct HI as ([evs0 Hev] & H). simpl. split; [|done].
    eexists. rewrite Hev, <- app_assoc. simpl. reflexivity.
  - unfold get.
    destruct (request_spec BASE_HEADERS transport "GET" SIGN_IN_URL no_kwargs st)
      as (fs' & evs' & -> & _). simpl. split; [by eexists | done].
Qed.

Lemma signed_in_evidence_flag (b : bool) (s : AmazonSession) :
  signed_in_evidence s -> signed_in_evidence (set_is_authenticated b s).
Proof. by intros H. Qed.

Lemma login_loop_evidence (fuel : nat) (a a' : Z) (st st' : State) :
  login_loop fuel a st = (Ok a', st') ->
  is_authenticated (self st) = false ->
  is_authenticated (self st') = true ->
  signed_in_evidence (self st').
Proof.
  revert a st. induction fuel as [|fuel IH]; intros a st H Hf Ht.
  - simpl in H. unfold bind, get_self in H. rewrite Hf in H. simpl in H.
    destruct (a <? _); [done|]. injection H as <- <-. congruence.
  - destruct (decide (a < max_auth_attempts (self st))) as [Ha|Ha].
    2:{ rewrite login_loop_exit in H by (right; lia). injection H as <- <-. congruence. }
    rewrite login_loop_enter in H by done. unfold bind at 1 in H.
    pose proof (signed_in_state st) as Hst.
    destruct (signed_in st) as [[[|]| e |] st0] eqn:Hs; simpl in Hst; subst st0; [| |done..].
    + injection H as <- <-. simpl. apply signed_in_evidence_flag. by apply signed_in_true.
    + destruct (try_forms_spec BASE_HEADERS transport AUTH_FORMS st)
        as (rf & st1 & Hr & _ & (_ & F & _) & Hfalse).
      unfold bind at 1 in H. rewrite Hr in H.
      destruct F as (_ & _ & _ & _ & Hflag & _).
      destruct rf as [[|]| e |]; [| |done..].
      * unfold bind at 1, ret at 1 in H. apply (IH _ _ H); congruence.
      * destruct (no_form_found_raises st1) as [e He].
        unfold bind at 1 in H. by rewrite He in H.
Qed.

(** X8. [login] flags a session as authenticated only on evidence: when it
    returns with the flag up on a session whose flag was down, the
    authentication cookies are stored, or the last response has the
    signed-in marker and lacks the signed-out one, in the state it returns
    in. *)
Theorem login_flag_evidence (st st' : State) :
  is_authenticated (self st) = false ->
  login st = (Ok tt, st') ->
  is_authenticated (self st') = true ->
  signed_in_evidence (self st').
Proof.
  intros Hf Hlogin Ht.
  destruct (login_entry_ok BASE_HEADERS SIGN_IN_URL SIGN_IN_REDIRECT_URL SIGN_OUT_URL
              transport st) as (st1 & He & _ & _ & Hfl & _).
  assert (is_authenticated (self st1) = false) as Hf1.
  { destruct (is_authenticated (self st1)); [|done]. by rewrite Hfl in Hf. }
  rewrite (login_eq _ _ _ _ _ _ _ _ He), login_attempts_eq in Hlogin.
  destruct (login_loop _ 0 st1) as [[a| e |] st2] eqn:Hl; [|done..].
  destruct (a =? _); [done|]. injection Hlogin as <-.
  by eapply login_loop_evidence.
Qed.

(** X9. On an iteration of the loop in which no handler matches and the
    status of the last response is in [400, 600), the message template has
    one field more than [format] is given arguments: what [login] raises is
    the [IndexError] of the format call, not the authentication error. *)
Theorem login_status_error (st0 st1 : State) (fuel : nat) (a : Z) (st : State) (r : Response) :
  login_entry st0 = (Ok tt, st1) ->
  iterates BASE_HEADERS AUTH_FORMS transport
    (Z.to_nat (max_auth_attempts (self st1))) 0 st1 fuel a st ->
  is_authenticated (self st) = false ->
  a < max_auth_attempts (self st) ->
  signed_in st = (Ok false, st) ->
  Forall (fun form => select_form form (self st) = false) AUTH_FORMS ->
  last_response (self st) = Some r ->
  400 <= status_code r < 600 ->
  login st0 =
    (Raised (IndexError "Replacement index 2 out of range for positional args tuple"), st).
Proof.
  intros He Hit Hf Ha Hs Hno Hr Hstatus.
  destruct (iterates_counts _ _ _ _ _ _ _ _ _ Hit) as (k & Hfuel & Han & Hm & _).
  destruct fuel as [|fuel]; [lia|].
  rewrite (login_eq _ _ _ _ _ _ _ _ He), login_attempts_eq,
    (iterates_loop _ _ _ _ _ _ _ _ _ Hit).
  rewrite login_loop_enter by done. unfold bind at 1. rewrite Hs.
  unfold bind at 1. rewrite (try_forms_no_match _ _ _ _ Hno).
  unfold bind at 1. rewrite (no_form_found_spec st r Hr).
  assert (ok r = false) as ->; [|done].
  unfold ok. apply negb_false_iff, andb_true_iff. lia.
Qed.

End MoreFacts.

(** * Properties of the item entity *)

Lemma rev_app_rev_app (s t u : string) :
  String.rev_app (String.rev_app s t) u = String.rev_app t (s +:+ u).
Proof.
  revert t u. induction s as [|c s IH]; intros t u; [done|].
  cbn [String.rev_app]. by rewrite IH.
Qed.

Lemma string_rev_involutive (s : string) : String.rev (String.rev s) = s.
Proof.
  unfold String.rev. rewrite rev_app_rev_app. cbn [String.rev_app].
  apply string_app_nil_r.
Qed.

Lemma rev_app_append (s t u : string) :
  String.rev_app (s +:+ t) u = String.rev_app t (String.rev_app s u).
Proof.
  revert u. induction s as [|c s IH]; intros u; [done|].
  change (String.rev_app (s +:+ t) (String c u) =
          String.rev_app t (String.rev_app s (String c u))).
  apply IH.
Qed.

Lemma rev_app_spec (s t : string) : String.rev_app s t = String.rev s +:+ t.
Proof.
  revert t. induction s as [|c s IH]; intros t; [done|].
  unfold String.rev. cbn [String.rev_app].
  rewrite (IH (String c t)), (IH (String c EmptyString)).
  clear IH. induction (String.rev s) as [|d r IHr]; [done|].
  change (String d (r +:+ String c t) = String d ((r +:+ String c EmptyString) +:+ t)).
  by rewrite IHr.
Qed.

(** What [lstrip] leaves does not begin with a character of the set. *)
Lemma lstrip_head (chars s : string) (c : ascii) (t : string) :
  Py.lstrip chars s = String c t -> Py.mem_char c chars = false.
Proof.
  induction s as [|d s IH]; cbn [Py.lstrip]; [done|].
  destruct (Py.mem_char d chars) eqn:Hd; [done|].
  intros [= -> ->]. done.
Qed.

Lemma lstrip_suffix (chars s : string) : exists p, s = p +:+ Py.lstrip chars s.
Proof.
  induction s as [|d s [p IH]]; cbn [Py.lstrip]; [by exists EmptyString|].
  destruct (Py.mem_char d chars).
  - exists (String d p). change (String d s = String d (p +:+ Py.lstrip chars s)).
    by rewrite <- IH.
  - by exists EmptyString.
Qed.

Lemma lstrip_fixed (chars s : string) :
  (forall c t, s = String c t -> Py.mem_char c chars = false) ->
  Py.lstrip chars s = s.
Proof.
  destruct s as [|d s]; [done|]. intros H. cbn [Py.lstrip].
  by rewrite (H d s eq_refl).
Qed.

(** What [strip] leaves neither begins nor ends with a character of the
    set. *)
Lemma strip_head (chars s : string) (c : ascii) (t : string) :
  Py.strip chars s = String c t -> Py.mem_char c chars = false.
Proof.
  unfold Py.strip, Py.rstrip. intros H.
  destruct (lstrip_suffix chars (String.rev (Py.lstrip chars s))) as [p Hp].
  apply (f_equal String.rev) in Hp. rewrite string_rev_involutive in Hp.
  unfold String.rev at 1 in Hp. rewrite rev_app_append, rev_app_spec in Hp.
  rewrite H in Hp.
  change (Py.lstrip chars s = String c (t +:+ String.rev_app p EmptyString)) in Hp.
  by apply lstrip_head in Hp.
Qed.

Lemma strip_last (chars s : string) (c : ascii) (t : string) :
  String.rev (Py.strip chars s) = String c t -> Py.mem_char c chars = false.
Proof.
  unfold Py.strip, Py.rstrip. rewrite string_rev_involutive. apply lstrip_head.
Qed.

(** Stripping twice is stripping once. *)
Lemma strip_idempotent (chars s : string) :
  Py.strip chars (Py.strip chars s) = Py.strip chars s.
Proof.
  unfold Py.strip at 1. rewrite (lstrip_fixed chars (Py.strip chars s)).
  - unfold Py.rstrip. rewrite (lstrip_fixed chars (String.rev _)).
    + apply string_rev_involutive.
    + intros c t. apply strip_last.
  - intros c t. apply strip_head.
Qed.

Lemma remove_char_absent (c : ascii) (s : string) :
  Py.mem_char c (Item.remove_char c s) = false.
Proof.
  induction s as [|d s IH]; cbn [Item.remove_char]; [done|].
  destruct (Ascii.eqb_spec d c) as [->|Hne]; [done|].
  cbn [Py.mem_char]. rewrite IH.
  destruct (Ascii.eqb_spec c d) as [->|]; done.
Qed.

(** [split(sep)] has a second part when [sep] occurs. *)
Lemma split_second_contains (sep s : string) :
  Py.contains sep s = true ->
  exists r, Item.after_first sep s = Some r /\
    Item.split_second sep s = Item.Returns (Item.before_first sep r).
Proof.
  intros H.
  assert (exists r, Item.after_first sep s = Some r) as [r Hr].
  { induction s as [|c s IH].
    - cbn [Py.contains Item.after_first] in *.
      destruct (String.prefix sep EmptyString); [by eexists|done].
    - cbn [Py.contains Item.after_first] in *.
      destruct (String.prefix sep (String c s)); [by eexists|].
      by apply IH. }
  exists r. split; [done|]. unfold Item.split_second. by rewrite Hr.
Qed.

Lemma split_second_absent (sep s : string) :
  Py.contains sep s = false ->
  Item.split_second sep s = Item.Raises (Item.IndexError "list index out of range").
Proof.
  intros H.
  assert (Item.after_first sep s = None) as Hr.
  { induction s as [|c s IH].
    - cbn [Py.contains Item.after_first] in *.
      by destruct (String.prefix sep EmptyString).
    - cbn [Py.contains Item.after_first] in *.
      destruct (String.prefix sep (String c s)); [done|].
      by apply IH. }
  unfold Item.split_second. by rewrite Hr.
Qed.

Lemma price_of_spec (tags : list Item.Node) :
  match Item.price_of tags with
  | Some p =>
      exists before tag after,
        tags = before ++ tag :: after /\
        Forall (fun t => String.prefix "$" (Item.strip (Item.text t)) = false) before /\
        String.prefix "$" (Item.strip (Item.text tag)) = true /\
        p = Item.remove_char "$" (Item.strip (Item.text tag))
  | None =>
      Forall (fun t => String.prefix "$" (Item.strip (Item.text t)) = false) tags
  end.
Proof.
  induction tags as [|tag tags IH]; cbn [Item.price_of]; [by constructor|].
  destruct (String.prefix "$" (Item.strip (Item.text tag))) eqn:Hp.
  - exists [], tag, tags. by repeat split.
  - destruct (Item.price_of tags) as [p|].
    + destruct IH as (before & tag' & after & -> & Hb & Ht & ->).
      exists (tag :: before), tag', after. repeat split; try done. by constructor.
    + by constructor.
Qed.

(** X10. [Item._parse_price] gives a price exactly when the text of some
    [div] below the item's tag, stripped, begins with a dollar sign. The
    price is that of the first such [div] in document order, and it has
    no dollar sign left in it; without such a [div] the method
    returns [None]. It never raises. *)
Theorem parse_price_no_dollar (parsed : Item.Node) :
  match Item._parse_price parsed with
  | Some p =>
      Py.mem_char "$" p = false /\
      exists before tag after,
        Item.find_all "div" parsed = before ++ tag :: after /\
        Forall (fun t => String.prefix "$" (Item.strip (Item.text t)) = false) before /\
        String.prefix "$" (Item.strip (Item.text tag)) = true /\
        p = Item.remove_char "$" (Item.strip (Item.text tag))
  | None =>
      Forall (fun t => String.prefix "$" (Item.strip (Item.text t)) = false)
        (Item.find_all "div" parsed)
  end.
Proof.
  unfold Item._parse_price.
  pose proof (price_of_spec (Item.find_all "div" parsed)) as H.
  destruct (Item.price_of (Item.find_all "div" parsed)) as [p|]; [|done].
  split; [|done].
  destruct H as (? & tag & ? & _ & _ & _ & ->). apply remove_char_absent.
Qed.

(** X11. When [Item._parse_title] returns, the title is the text of the
    first anchor below the item's tag, and it neither begins nor ends with
    a whitespace character: stripping it again changes nothing. *)
Theorem parse_title_stripped (parsed : Item.Node) (title : string) :
  Item._parse_title parsed = Item.Returns title ->
  (exists tag rest, Item.find_all "a" parsed = tag :: rest /\
     title = Item.strip (Item.text tag)) /\
  (forall c t, title = String c t -> Py.mem_char c Item.whitespace = false) /\
  (forall c t, String.rev title = String c t -> Py.mem_char c Item.whitespace = false) /\
  Item.strip title = title.
Proof.
  unfold Item._parse_title, Item.find.
  destruct (Item.find_all "a" parsed) as [|tag rest] eqn:Hf; [done|].
  cbn [head]. intros [= <-]. split; [by exists tag, rest|].
  split; [|split].
  - intros c t. apply strip_head.
  - intros c t. apply strip_last.
  - apply strip_idempotent.
Qed.

Lemma prefix_append (s t : string) : String.prefix s (s +:+ t) = true.
Proof.
  induction s as [|c s IH]; [by destruct t|].
  change (String.prefix (String c s) (String c (s +:+ t)) = true).
  cbn [String.prefix]. by destruct (ascii_dec c c).
Qed.

(** X12. When [Item._parse_link] returns, the link is [BASE_URL] followed
    by the [href] of the first anchor below the item's tag, so it begins
    with [BASE_URL]; and [Item._parse_title] returns as well, since both
    read the same anchor. *)
Theorem parse_link_prefix (BASE_URL : string) (parsed : Item.Node) (link : string) :
  Item._parse_link BASE_URL parsed = Item.Returns link ->
  String.prefix BASE_URL link = true /\
  (exists tag rest href,
     Item.find_all "a" parsed = tag :: rest /\
     Item.attrs_of tag !! "href" = Some href /\
     link = BASE_URL +:+ href) /\
  exists title, Item._parse_title parsed = Item.Returns title.
Proof.
  unfold Item._parse_title, Item._parse_link, Item.find.
  destruct (Item.find_all "a" parsed) as [|tag rest]; cbn [head]; [done|].
  destruct (Item.attrs_of tag !! "href") as [href|] eqn:Hh; [|done].
  intros [= <-]. split; [apply prefix_append|].
  split; [by exists tag, rest, href|by eexists].
Qed.

Lemma condition_of_spec (tags : list Item.Node) :
  exists r, Item.condition_of tags = Item.Returns r /\
    match r with
    | Some c =>
        exists before tag after rest,
          tags = before ++ tag :: after /\
          Forall (fun t => Py.contains "Condition:" (Item.text t) = false) before /\
          Item.after_first "Condition:" (Item.text tag) = Some rest /\
          c = Item.strip (Item.before_first "Condition:" rest)
    | None => Forall (fun t => Py.contains "Condition:" (Item.text t) = false) tags
    end.
Proof.
  induction tags as [|tag tags IH]; cbn [Item.condition_of].
  - exists None. split; [done|]. constructor.
  - destruct (Py.contains "Condition:" (Item.text tag)) eqn:Hc.
    + destruct (split_second_contains _ _ Hc) as (rest & Hrest & ->).
      eexists. split; [done|]. exists [], tag, tags, rest. by repeat split.
    + destruct IH as (r & -> & Hr). exists r. split; [done|].
      destruct r as [c|].
      * destruct Hr as (before & tag' & after & rest & -> & Hb & Ht & ->).
        exists (tag :: before), tag', after, rest. repeat split; try done.
        by constructor.
      * by constructor.
Qed.

(** X13. [Item._parse_condition] never raises: the index into the parts of
    the split is only taken on a text that contains the separator. It
    returns [None] exactly when no [div] below the item's tag mentions the
    condition; otherwise it returns what follows the first separator in the
    first such [div], up to the next separator, without whitespace at either
    end. *)
Theorem parse_condition_safe (parsed : Item.Node) :
  exists r, Item._parse_condition parsed = Item.Returns r /\
    match r with
    | Some c =>
        (exists before tag after rest,
          Item.find_all "div" parsed = before ++ tag :: after /\
          Forall (fun t => Py.contains "Condition:" (Item.text t) = false) before /\
          Item.after_first "Condition:" (Item.text tag) = Some rest /\
          c = Item.strip (Item.before_first "Condition:" rest)) /\
        Item.strip c = c
    | None =>
        Forall (fun t => Py.contains "Condition:" (Item.text t) = false)
          (Item.find_all "div" parsed)
    end.
Proof.
  unfold Item._parse_condition.
  destruct (condition_of_spec (Item.find_all "div" parsed)) as (r & Hr & H).
  exists r. split; [done|]. destruct r as [c|]; [|done].
  split; [done|].
  destruct H as (? & ? & ? & ? & _ & _ & _ & ->). apply strip_idempotent.
Qed.

(** X14. [Item._parse_return_eligible_date] raises only what [strptime]
    raises, on the text that it was given: the index into the parts of the
    split is guarded. With a [strptime] that accepts every text, it always
    returns. *)
Theorem parse_return_date_raises (date : Type) (strptime : string -> Item.outcome date)
    (parsed : Item.Node) (e : Item.error) :
  Item._parse_return_eligible_date date strptime parsed = Item.Raises e ->
  exists tag sep rest,
    tag ∈ Item.find_all "div" parsed /\
    Py.contains "Return" (Item.text tag) = true /\
    sep = (if Py.contains "closed on " (Item.text tag) then "closed on " else "through ") /\
    Item.after_first sep (Item.strip (Item.text tag)) = Some rest /\
    strptime (Item.before_first sep rest) = Item.Raises e.
Proof.
  unfold Item._parse_return_eligible_date.
  induction (Item.find_all "div" parsed) as [|tag tags IH];
    cbn [Item.return_date_of]; [done|].
  assert (forall t, t ∈ tags -> t ∈ tag :: tags) as Hin by (intros; by right).
  destruct (Py.contains "Return" (Item.text tag)) eqn:Hret.
  - set (sep := if Py.contains "closed on " (Item.text tag)
                then "closed on " else "through ").
    destruct (Py.contains sep (Item.strip (Item.text tag))) eqn:Hsep.
    + destruct (split_second_contains _ _ Hsep) as (rest & Hrest & ->).
      destruct (strptime (Item.before_first sep rest)) as [d|e'] eqn:Hd; [done|].
      intros [= <-]. exists tag, sep, rest. repeat split; try done. by left.
    + intros H. destruct (IH H) as (t & s & r & Ht & ?).
      exists t, s, r. split; [by apply Hin|done].
  - intros H. destruct (IH H) as (t & s & r & Ht & ?).
    exists t, s, r. split; [by apply Hin|done].
Qed.

(** * Runs of the further properties *)


(** The capture of the sign-in page gets the number 1 when number 0 is
    taken. *)
Lemma get_page_from_url_name_run :
  (_get_page_from_url (url Scenario.sign_in_page) Cases.debugging_here).1 =
    Ok "signin_1.html".
Proof.
  destruct (get_page_from_url_name (url Scenario.sign_in_page) Cases.debugging_here
              eq_refl) as (n & Heq & Hfree & Hbelow).
  destruct n as [|[|n]].
  - by vm_compute in Hfree.
  - rewrite Heq. reflexivity.
  - assert (1 < S (S n))%nat as H1 by lia.
    destruct (Hbelow 1%nat H1) as [x Hx]. by vm_compute in Hx.
Defined.


(** Logging out of an authenticated session removes its cookie store, and
    the next session starts without cookies. *)
Lemma logout_forgets_run :
  files (logout Scenario.base_headers Scenario.sign_out_url
           (Scenario.always Scenario.home_page) (Cases.stored 3)).2
    !! "/home/user/conf/cookies.json" = None /\
  init "conf/cookies.json" "out" Scenario.no_json "user@example.com" "secret" false 3
    (Some "conf/cookies.json") None "/home/user"
    (files (logout Scenario.base_headers Scenario.sign_out_url
              (Scenario.always Scenario.home_page) (Cases.stored 3)).2) =
  Ok (mkSession "user@example.com" "secret" false 3 "conf/cookies.json" "out" [] None false).
Proof.
  set (q := logout Scenario.base_headers Scenario.sign_out_url
              (Scenario.always Scenario.home_page) (Cases.stored 3)).
  assert (q = (Ok tt, q.2)) as Hq.
  { rewrite (surjective_pairing q) at 1. f_equal. }
  destruct (logout_forgets Scenario.base_headers Scenario.sign_out_url
              "conf/cookies.json" "out"
              (Scenario.always Scenario.home_page) Scenario.no_json
              "user@example.com" "secret" false 3 (Some "conf/cookies.json") None
              (Cases.stored 3) q.2 eq_refl) as (_ & _ & _ & H1 & _ & H2).
  - by vm_compute.
  - exact Hq.
  - split; [exact H1 | exact H2].
Defined.

(** The [x-main] cookie of an authenticated session comes back as it
    was. *)
Lemma cookies_reloaded_run :
  exists s',
    init "conf/cookies.json" "out" Scenario.no_json "user@example.com" "secret" false 3
      (Some "conf/cookies.json") None "/home/user"
      (files (persist_cookies (Cases.stored 3)).2) = Ok s' /\
    dict_from_cookiejar (session s') !! "x-main" = Some (Some "xm").
Proof.
  destruct (cookies_reloaded "conf/cookies.json" "out" Scenario.no_json
              "user@example.com" "secret" false 3 (Some "conf/cookies.json") None
              (Cases.stored 3) eq_refl) as (s' & Hi & _ & _ & _ & Hv).
  - by vm_compute.
  - exists s'. split; [exact Hi|]. apply Hv.
    + by vm_compute.
    + by intros s [= <-].
Defined.

(** After a login that finds the home page, the cookie store holds the
    jar. *)
Lemma login_persists_cookies_run :
  files (Scenario.login (Scenario.always Scenario.home_page) (Cases.fresh 3)).2
    !! "/home/user/conf/cookies.json" =
  Some (JsonText (dict_from_cookiejar
    (session (self (Scenario.login (Scenario.always Scenario.home_page)
                      (Cases.fresh 3)).2)))).
Proof.
  destruct (login_persists_cookies Scenario.base_headers Scenario.sign_in_url
              Scenario.sign_in_redirect_url Scenario.sign_out_url
              "conf/cookies.json" "out"
              Scenario.forms (Scenario.always Scenario.home_page) Scenario.no_json
              "user@example.com" "secret" false 3 (Some "conf/cookies.json") None
              (Cases.fresh 3) eq_refl eq_refl) as (_ & _ & H & _).
  - by vm_compute.
  - exact H.
Defined.

(** A login that finds the home page ends on the evidence of that page. *)
Lemma login_flag_evidence_run :
  signed_in_evidence
    (self (Scenario.login (Scenario.always Scenario.home_page) (Scenario.fresh 3 false)).2).
Proof.
  apply (login_flag_evidence Scenario.base_headers Scenario.sign_in_url
           Scenario.sign_in_redirect_url Scenario.sign_out_url Scenario.forms
           (Scenario.always Scenario.home_page) (Scenario.fresh 3 false)).
  - reflexivity.
  - assert ((Scenario.login (Scenario.always Scenario.home_page)
               (Scenario.fresh 3 false)).1 = Ok tt) as H by (by vm_compute).
    unfold Scenario.login in *.
    destruct (login _ _ _ _ _ _ _) as [r s]. simpl in *. by subst.
  - by vm_compute.
Defined.

(** A page that is not found ends [login] in the [IndexError] of the
    format call. *)
Lemma login_status_error_run :
  Scenario.login (Scenario.always Scenario.not_found_page) (Scenario.fresh 3 false) =
    (Raised (IndexError "Replacement index 2 out of range for positional args tuple"),
     (Scenario.login_entry (Scenario.always Scenario.not_found_page)
        (Scenario.fresh 3 false)).2).
Proof.
  set (server := Scenario.always Scenario.not_found_page).
  set (st1 := (Scenario.login_entry server (Scenario.fresh 3 false)).2).
  apply (login_status_error Scenario.base_headers Scenario.sign_in_url
           Scenario.sign_in_redirect_url Scenario.sign_out_url Scenario.forms
           server (Scenario.fresh 3 false) st1 3 0 st1 Scenario.not_found_page).
  - vm_compute. reflexivity.
  - apply iterates_here.
  - reflexivity.
  - by vm_compute.
  - vm_compute. reflexivity.
  - repeat constructor.
  - reflexivity.
  - by vm_compute.
Defined.

(** The title of the sample item. *)
Lemma parse_title_stripped_run :
  Item._parse_title Cases.item_tag = Item.Returns "Cadeya Egg Cleaning Brush" /\
  Item.strip "Cadeya Egg Cleaning Brush" = "Cadeya Egg Cleaning Brush".
Proof.
  assert (Item._parse_title Cases.item_tag = Item.Returns "Cadeya Egg Cleaning Brush")
    as H by (by vm_compute).
  split; [exact H|].
  by destruct (parse_title_stripped Cases.item_tag _ H) as (_ & _ & _ & Hs).
Defined.

(** The link of the sample item. *)
Lemma parse_link_prefix_run :
  Item._parse_link "https://www.amazon.com" Cases.item_tag =
    Item.Returns "https://www.amazon.com/dp/B01N0TQ0OH" /\
  String.prefix "https://www.amazon.com" "https://www.amazon.com/dp/B01N0TQ0OH" = true.
Proof.
  assert (Item._parse_link "https://www.amazon.com" Cases.item_tag =
            Item.Returns "https://www.amazon.com/dp/B01N0TQ0OH") as H by (by vm_compute).
  split; [exact H|].
  by destruct (parse_link_prefix "https://www.amazon.com" Cases.item_tag _ H) as (Hp & _).
Defined.

(** The sample item has a return window whose date [strptime] rejects. *)
Lemma parse_return_date_raises_run :
  exists tag sep rest,
    tag ∈ Item.find_all "div" Cases.item_tag /\
    Py.contains "Return" (Item.text tag) = true /\
    sep = (if Py.contains "closed on " (Item.text tag) then "closed on " else "through ") /\
    Item.after_first sep (Item.strip (Item.text tag)) = Some rest /\
    Cases.strptime (Item.before_first sep rest) =
      Item.Raises (Item.ValueError "time data tomorrow does not match format '%b %d, %Y'").
Proof.
  apply (parse_return_date_raises _ Cases.strptime Cases.item_tag). by vm_compute.
Defined.
